(** * User and message services and their HTTP controllers

    A shallow embedding of
    - [server/services/user.service.ts]
    - [server/services/message.service.ts]
    - [server/controllers/user.controller.ts]
    - [server/controllers/message.controller.ts]

    JavaScript values are an inductive type, JavaScript objects are finite
    maps from property names to values, and asynchronous code that may
    reject is a state-and-exception monad over a world made of the document
    store, the clock and the trace of observable effects. *)

From stdpp Require Import gmap strings list fin_maps sorting.
From Stdlib Require Import ZArith.

Local Open Scope Z_scope.

(** ** JavaScript values *)

#[warnings="-register-all"]
Inductive JsValue : Type :=
  | JUndefined
  | JNull
  | JBool (b : bool)
  | JNum (n : Z)
  | JStr (s : string)
  | JDate (t : Z)                      (* a Date, as its time value in ms *)
  | JObjectId (hex : string)           (* a mongodb ObjectId *)
  | JArr (l : list JsValue)
  | JObj (o : gmap string JsValue).

Abbreviation JsObject := (gmap string JsValue).

(** [!!v] : undefined, null, false, 0 and the empty string are falsy;
    every object (Date, ObjectId, array, plain object) is truthy. *)
Definition truthy (v : JsValue) : bool :=
  match v with
  | JUndefined | JNull => false
  | JBool b => b
  | JNum n => negb (n =? 0)
  | JStr s => negb (String.eqb s "")
  | JDate _ | JObjectId _ | JArr _ | JObj _ => true
  end.

(** [o.k] on an object: a missing property reads as undefined. *)
Definition get (o : JsObject) (k : string) : JsValue :=
  default JUndefined (o !! k).

(** [v.k] on a value that passed a truthiness test, for the property names
    the controllers read (msg, msgFrom, msgDateTime): primitives, dates,
    ids and arrays have no such property. *)
Definition prop (v : JsValue) (k : string) : JsValue :=
  match v with
  | JObj o => get o k
  | _ => JUndefined
  end.

(** ['k' in o] *)
Definition has_key (k : string) (o : JsObject) : bool :=
  bool_decide (is_Some (o !! k)).

(** [a === b].  Objects are compared by reference; the two sides of every
    comparison in the services come from different allocations (a stored
    document and a request), so two objects are never identical. *)
Definition strict_equal (a b : JsValue) : bool :=
  match a, b with
  | JUndefined, JUndefined => true
  | JNull, JNull => true
  | JBool x, JBool y => Bool.eqb x y
  | JNum x, JNum y => x =? y
  | JStr x, JStr y => String.eqb x y
  | _, _ => false
  end.

(** [{ error: msg }] *)
Definition error_obj (msg : string) : JsObject := {[ "error" := JStr msg ]}.

(** A thrown [Error]; the services only read its [message]. *)
Record JsError : Type := Error { message : string }.

(** ** Documents

    Modelled from the spec: the type declarations of [types/types] and the
    schemas of [models/users.model] and [models/messages.model] are not
    among the sources.  The data model lists a User as id, username,
    password, dateJoined and a Message as id, msg, msgFrom, msgDateTime. *)

Record UserDocument : Type := mkUser {
  user_id : string;
  user_username : string;
  user_password : string;
  user_dateJoined : Z
}.

Record MessageDocument : Type := mkMessage {
  message_id : string;
  message_msg : string;
  message_msgFrom : string;
  message_msgDateTime : Z
}.

(** [doc.toObject()], and what [.lean()] hands out in place of [doc]. *)
Definition user_toObject (d : UserDocument) : JsObject :=
  <[ "_id" := JObjectId (user_id d) ]>
  (<[ "username" := JStr (user_username d) ]>
  (<[ "password" := JStr (user_password d) ]>
  (<[ "dateJoined" := JDate (user_dateJoined d) ]> ∅))).

Definition message_toObject (d : MessageDocument) : JsObject :=
  <[ "_id" := JObjectId (message_id d) ]>
  (<[ "msg" := JStr (message_msg d) ]>
  (<[ "msgFrom" := JStr (message_msgFrom d) ]>
  (<[ "msgDateTime" := JDate (message_msgDateTime d) ]> ∅))).

(** ** Effects *)

Inductive Outcome (A : Type) : Type :=
  | Resolved (a : A)
  | Rejected (e : JsError).
Arguments Resolved {A} a.
Arguments Rejected {A} e.

Inductive Event : Type :=
  | EvCall (service : string) (args : list JsValue)
  | EvStorage (operation : string) (args : list JsValue)
  | EvEmit (event : string) (payload : JsValue)
  | EvRespond (status : Z) (body : JsValue).

Record World (DB : Type) : Type := mkWorld {
  db : DB;
  clock : Z;
  trace : list Event
}.
Arguments mkWorld {DB} db clock trace.
Arguments db {DB} w.
Arguments clock {DB} w.
Arguments trace {DB} w.

Definition M (DB A : Type) : Type := World DB → Outcome A * World DB.

Definition ret {DB A} (a : A) : M DB A := λ w, (Resolved a, w).

Definition throw {DB A} (e : JsError) : M DB A := λ w, (Rejected e, w).

Definition bind {DB A B} (m : M DB A) (k : A → M DB B) : M DB B :=
  λ w, match m w with
       | (Resolved a, w') => k a w'
       | (Rejected e, w') => (Rejected e, w')
       end.

(** [try { m } catch (error) { h error }] *)
Definition try_catch {DB A} (m : M DB A) (h : JsError → M DB A) : M DB A :=
  λ w, match m w with
       | (Resolved a, w') => (Resolved a, w')
       | (Rejected e, w') => h e w'
       end.

Declare Scope js_scope.
Delimit Scope js_scope with js.
Notation "'let*' x := m 'in' k" := (bind m (λ x, k))
  (at level 10, x name, m at level 100, k at level 200) : js_scope.
Notation "m ;;; k" := (bind m (λ _, k))
  (at level 100, right associativity) : js_scope.

Definition log {DB} (ev : Event) : M DB unit :=
  λ w, (Resolved tt, mkWorld (db w) (clock w) (trace w ++ [ev])).

(** [new Date()] *)
Definition new_Date {DB} : M DB JsValue :=
  λ w, (Resolved (JDate (clock w)), w).

(** One round trip to the document store. *)
Definition storage {DB A} (operation : string) (args : list JsValue)
    (op : DB → Outcome A * DB) : M DB A :=
  λ w, let '(r, d) := op (db w) in
       (r, mkWorld d (clock w) (trace w ++ [EvStorage operation args])).

(** ** The document store

    [UserModel] and [MessageModel] belong to the database driver; their
    operations are parameters of the development.  Each one takes the store
    to an outcome and a new store; it may reject. *)
Class Database (DB : Type) : Type := {
  UserModel_create : JsObject → DB → Outcome UserDocument * DB;
  UserModel_findOne : JsObject → DB → Outcome (option UserDocument) * DB;
  UserModel_findOneAndDelete :
    JsObject → DB → Outcome (option UserDocument) * DB;
  UserModel_findOneAndUpdate :
    JsObject → JsObject → DB → Outcome (option UserDocument) * DB;
  MessageModel_create : JsValue → DB → Outcome MessageDocument * DB;
  (* the collection scan behind [MessageModel.find()], in storage order *)
  MessageModel_find : DB → Outcome (list MessageDocument) * DB
}.

(** ** server/services/user.service.ts *)

Record UserCredentials : Type := mkCredentials {
  username : JsValue;
  password : JsValue
}.

Section UserService.
Context {DB : Type} `{Database DB}.
Local Open Scope js_scope.

Definition saveUser (user : JsObject) : M DB JsObject :=
  try_catch
    (let* createdUser := storage "UserModel.create" [JObj user]
                     (UserModel_create user) in
     let safeUser := delete "password" (user_toObject createdUser) in
     ret safeUser)
    (λ error,
      ret (error_obj ("Error when saving user: " +:+ message error))).

Definition getUserByUsername (username : JsValue) : M DB JsObject :=
  try_catch
    (let* user := storage "UserModel.findOne"
                    [JObj {[ "username" := username ]}]
                    (UserModel_findOne {[ "username" := username ]}) in
     match user_toObject <$> user with
     | None => ret (error_obj "User not found")
     | Some user =>
         let safeUser := delete "password" user in
         ret safeUser
     end)
    (λ error,
      ret (error_obj ("Error when saving user: " +:+ message error))).

Definition loginUser (loginCredentials : UserCredentials) : M DB JsObject :=
  try_catch
    (let* user := storage "UserModel.findOne"
              [JObj {[ "username" := username loginCredentials ]}]
              (UserModel_findOne
                 {[ "username" := username loginCredentials ]}) in
     match user with
     | None => ret (error_obj "User not found.")
     | Some user =>
         if negb (strict_equal (JStr (user_password user))
                               (password loginCredentials))
         then ret (error_obj "Invalid username or password.")
         else
           let safeUser := delete "password" (user_toObject user) in
           ret safeUser
     end)
    (λ error,
      ret (error_obj
             ("Error logging in user saving user: " +:+ message error))).

Definition deleteUserByUsername (username : JsValue) : M DB JsObject :=
  try_catch
    (let* deletedUser := storage "UserModel.findOneAndDelete"
                     [JObj {[ "username" := username ]}]
                     (UserModel_findOneAndDelete
                        {[ "username" := username ]}) in
     match user_toObject <$> deletedUser with
     | None => ret (error_obj "User not found.")
     | Some deletedUser =>
         let safeUser := delete "password" deletedUser in
         ret safeUser
     end)
    (λ error, ret (error_obj ("Error deleting user: " +:+ message error))).

Definition updateUser (username : JsValue) (updates : JsObject)
    : M DB JsObject :=
  try_catch
    (let* updatedUser := storage "UserModel.findOneAndUpdate"
                     [JObj {[ "username" := username ]}; JObj updates]
                     (UserModel_findOneAndUpdate
                        {[ "username" := username ]} updates) in
     match user_toObject <$> updatedUser with
     | None => ret (error_obj "User not found.")
     | Some updatedUser =>
         let safeUser := delete "password" updatedUser in
         ret safeUser
     end)
    (λ error, ret (error_obj ("Error updating user: " +:+ message error))).

End UserService.

(** ** server/services/message.service.ts *)

(** Modelled from the spec: the ordered retrieval
    [MessageModel.find().sort({ msgDateTime: dir }).exec()] is carried out by
    the document store, which is not among the sources.  Messages come back
    ordered by timestamp; messages with equal timestamps keep the order in
    which storage holds them.  [dir = 1] is ascending, as mongoose has it. *)
Definition comes_first (dir : Z) (a b : MessageDocument) : bool :=
  if dir =? 1 then message_msgDateTime a <=? message_msgDateTime b
  else message_msgDateTime b <=? message_msgDateTime a.

Fixpoint sort_insert (dir : Z) (d : MessageDocument)
    (l : list MessageDocument) : list MessageDocument :=
  match l with
  | [] => [d]
  | d' :: l' =>
      if comes_first dir d d' then d :: d' :: l'
      else d' :: sort_insert dir d l'
  end.

Definition query_sort (dir : Z) (l : list MessageDocument)
    : list MessageDocument :=
  foldr (sort_insert dir) [] l.

Section MessageService.
Context {DB : Type} `{Database DB}.
Local Open Scope js_scope.

(** [MessageModel.find().sort({ msgDateTime: dir }).exec()] *)
Definition find_sort_exec (dir : Z) : M DB (list MessageDocument) :=
  let* found := storage "MessageModel.find" [] MessageModel_find in
  ret (query_sort dir found).

(** [saved.toObject ? saved.toObject() : saved]: a stored document always
    carries [toObject].  [message || 'Failed to save message'] falls back on
    the empty message. *)
Definition saveMessage (message0 : JsValue) : M DB JsObject :=
  try_catch
    (let* saved := storage "MessageModel.create" [message0]
                     (MessageModel_create message0) in
     ret (message_toObject saved))
    (λ e,
      ret (error_obj (if String.eqb (message e) ""
                      then "Failed to save message" else message e))).

Definition getMessages : M DB (list JsObject) :=
  try_catch
    (let* messages := find_sort_exec 1 in
     ret (message_toObject <$> messages))
    (λ error, ret []).

End MessageService.

(** ** Controllers *)

Record Request : Type := mkRequest {
  body : JsObject;       (* req.body, as the JSON body parser leaves it *)
  params : JsObject      (* req.params *)
}.

(** [res.status(status).json(body)] *)
Definition respond {DB} (status : Z) (body0 : JsValue) : M DB unit :=
  log (EvRespond status body0).

(** A call of an imported service function, recorded the way a spy
    records it. *)
Definition call {DB A} (service : string) (args : list JsValue)
    (m : M DB A) : M DB A :=
  bind (log (EvCall service args)) (λ _, m).

(** The service modules as the controllers import them. *)
Record UserServiceModule (DB : Type) : Type := {
  svc_saveUser : JsObject → M DB JsObject;
  svc_getUserByUsername : JsValue → M DB JsObject;
  svc_loginUser : UserCredentials → M DB JsObject;
  svc_deleteUserByUsername : JsValue → M DB JsObject;
  svc_updateUser : JsValue → JsObject → M DB JsObject
}.
Arguments svc_saveUser {DB} u.
Arguments svc_getUserByUsername {DB} u.
Arguments svc_loginUser {DB} u.
Arguments svc_deleteUserByUsername {DB} u.
Arguments svc_updateUser {DB} u.

Record MessageServiceModule (DB : Type) : Type := {
  svc_saveMessage : JsValue → M DB JsObject;
  svc_getMessages : M DB (list JsObject)
}.
Arguments svc_saveMessage {DB} m.
Arguments svc_getMessages {DB} m.

(** *** server/controllers/user.controller.ts *)

Section UserController.
Context {DB : Type} (util : UserServiceModule DB).
Local Open Scope js_scope.

Definition isUserBodyValid (req : Request) : bool :=
  truthy (get (body req) "username") && truthy (get (body req) "password").

Definition createUser (req : Request) : M DB unit :=
  if negb (isUserBodyValid req) then
    respond 400 (JObj (error_obj "Username and password are required."))
  else
    try_catch
      (let* now := new_Date in
       let userToSave : JsObject :=
         <[ "username" := get (body req) "username" ]>
         (<[ "password" := get (body req) "password" ]>
         (<[ "dateJoined" := now ]> ∅)) in
       let* result := call "saveUser" [JObj userToSave]
                        (svc_saveUser util userToSave) in
       if has_key "error" result then
         respond 400 (JObj {[ "error" := get result "error" ]})
       else
         respond 201 (JObj result))
      (λ error, respond 500 (JObj (error_obj "Server error."))).

Definition userLogin (req : Request) : M DB unit :=
  let username := get (body req) "username" in
  let password := get (body req) "password" in
  if negb (truthy username) || negb (truthy password) then
    respond 400 (JObj (error_obj "Username and password are required."))
  else
    try_catch
      (let* result :=
         call "loginUser"
           [JObj (<[ "username" := username ]> {[ "password" := password ]})]
           (svc_loginUser util (mkCredentials username password)) in
       if has_key "error" result then
         respond 401 (JObj {[ "error" := get result "error" ]})
       else
         respond 200 (JObj result))
      (λ error, respond 500 (JObj (error_obj "Server error."))).

Definition getUser (req : Request) : M DB unit :=
  let username := get (params req) "username" in
  if negb (truthy username) then
    respond 400 (JObj (error_obj "Username parameter is required."))
  else
    try_catch
      (let* user := call "getUserByUsername" [username]
                      (svc_getUserByUsername util username) in
       if has_key "error" user then
         respond 404 (JObj {[ "error" := get user "error" ]})
       else
         respond 200 (JObj user))
      (λ error, respond 500 (JObj (error_obj "Server error."))).

Definition deleteUser (req : Request) : M DB unit :=
  let username := get (params req) "username" in
  if negb (truthy username) then
    respond 400 (JObj (error_obj "Username parameter is required."))
  else
    try_catch
      (let* result := call "deleteUserByUsername" [username]
                        (svc_deleteUserByUsername util username) in
       if has_key "error" result then
         respond 404 (JObj {[ "error" := get result "error" ]})
       else
         respond 200 (JObj result))
      (λ error, respond 500 (JObj (error_obj "Server error."))).

Definition resetPassword (req : Request) : M DB unit :=
  let username := get (body req) "username" in
  let password := get (body req) "password" in
  if negb (truthy username) || negb (truthy password) then
    respond 400 (JObj (error_obj "Username and new password are required."))
  else
    try_catch
      (let* result :=
         call "updateUser" [username; JObj {[ "password" := password ]}]
           (svc_updateUser util username {[ "password" := password ]}) in
       if has_key "error" result then
         respond 404 (JObj {[ "error" := get result "error" ]})
       else
         respond 200 (JObj result))
      (λ error, respond 500 (JObj (error_obj "Server error."))).

End UserController.

(** *** server/controllers/message.controller.ts *)

(** [socket.emit(event, payload)] *)
Definition socket_emit {DB} (event : string) (payload : JsValue) : M DB unit :=
  log (EvEmit event payload).

Section MessageController.
Context {DB : Type} (util : MessageServiceModule DB).
Local Open Scope js_scope.

Definition isRequestValid (req : Request) : bool :=
  let msg := get (body req) "messageToAdd" in
  truthy msg && truthy (prop msg "msg") && truthy (prop msg "msgFrom")
  && truthy (prop msg "msgDateTime").

Definition isMessageValid (message0 : JsValue) : bool :=
  truthy message0 && truthy (prop message0 "msg")
  && truthy (prop message0 "msgFrom") && truthy (prop message0 "msgDateTime").

Definition addMessageRoute (req : Request) : M DB unit :=
  if negb (isRequestValid req) then
    respond 400 (JObj (error_obj "Invalid message body"))
  else
    let messageToAdd := get (body req) "messageToAdd" in
    if negb (isMessageValid messageToAdd) then
      respond 400 (JObj (error_obj "Invalid message object"))
    else
      try_catch
        (let* msgFromDb := call "saveMessage" [messageToAdd]
                             (svc_saveMessage util messageToAdd) in
         if has_key "error" msgFromDb then
           respond 500 (JObj msgFromDb)
         else
           (socket_emit "messageUpdate" (JObj {[ "msg" := JObj msgFromDb ]})
            ;;; respond 201 (JObj msgFromDb)))
        (λ error, respond 500 (JObj (error_obj "Failed to save message"))).

Definition getMessagesRoute (req : Request) : M DB unit :=
  try_catch
    (let* messages := call "getMessages" [] (svc_getMessages util) in
     respond 200 (JArr (JObj <$> messages)))
    (λ error, respond 500 (JObj (error_obj "Failed to fetch messages"))).

End MessageController.

(** *** The application: the controllers wired to the services *)

Section App.
Context {DB : Type} `{Database DB}.

Definition userService : UserServiceModule DB := {|
  svc_saveUser := saveUser;
  svc_getUserByUsername := getUserByUsername;
  svc_loginUser := loginUser;
  svc_deleteUserByUsername := deleteUserByUsername;
  svc_updateUser := updateUser
|}.

Definition messageService : MessageServiceModule DB := {|
  svc_saveMessage := saveMessage;
  svc_getMessages := getMessages
|}.

End App.

(** ** Vocabulary of the statements *)

(** [hay.includes(needle)] *)
Definition includes (hay needle : string) : bool :=
  bool_decide (is_Some (String.index 0 needle hay)).

(** The [error] text of a response body contains [needle]. *)
Definition error_body_contains (body0 : JsValue) (needle : string) : bool :=
  match prop body0 "error" with
  | JStr s => includes s needle
  | _ => false
  end.

(** The world after one more observable effect. *)
Definition then_event {DB} (w : World DB) (ev : Event) : World DB :=
  mkWorld (db w) (clock w) (trace w ++ [ev]).

(** The world after one round trip to the document store. *)
Definition after_storage {DB} (w : World DB) (operation : string)
    (args : list JsValue) (d : DB) : World DB :=
  mkWorld d (clock w) (trace w ++ [EvStorage operation args]).

(** The table of section 4.3 for the user endpoints: what a handler answers
    to the outcome of its service call.  A result with an [error] key gets
    [err_status] and the error text, any other result gets [ok_status] and
    the result itself, and a service that throws gets 500 with a fixed
    text. *)
Definition reply {DB} (err_status ok_status : Z)
    (served : Outcome JsObject * World DB) : Outcome unit * World DB :=
  match served with
  | (Resolved r, w1) =>
      if has_key "error" r
      then (Resolved tt,
            then_event w1
              (EvRespond err_status (JObj {[ "error" := get r "error" ]})))
      else (Resolved tt, then_event w1 (EvRespond ok_status (JObj r)))
  | (Rejected e, w1) =>
      (Resolved tt,
       then_event w1 (EvRespond 500 (JObj (error_obj "Server error."))))
  end.

(** The object literals the controllers build. *)
Definition credentials_obj (c : UserCredentials) : JsObject :=
  <[ "username" := username c ]> {[ "password" := password c ]}.

Definition userToSave_obj (req : Request) (now : Z) : JsObject :=
  <[ "username" := get (body req) "username" ]>
  (<[ "password" := get (body req) "password" ]>
  (<[ "dateJoined" := JDate now ]> ∅)).

(** A request to add a message that lacks the message or one of its
    required fields. *)
Definition message_field_missing (req : Request) : Prop :=
  body req !! "messageToAdd" = None
  ∨ ∃ (o : JsObject) (k : string),
      body req !! "messageToAdd" = Some (JObj o)
      ∧ k ∈ ["msg"; "msgFrom"; "msgDateTime"] ∧ o !! k = None.

(** The push notifications and the service calls of a trace. *)
Definition is_emit (ev : Event) : bool :=
  match ev with EvEmit _ _ => true | _ => false end.

Definition is_call (ev : Event) : bool :=
  match ev with EvCall _ _ => true | _ => false end.

Definition emitted (t : list Event) : list Event := List.filter is_emit t.

Definition calls (t : list Event) : list Event := List.filter is_call t.

Definition SafeUser_fields : gset string :=
  {[ "_id"; "username"; "dateJoined" ]}.

(** The safe projection of a stored user. *)
Definition SafeUser (r : JsObject) : Prop :=
  ∃ d : UserDocument, r = delete "password" (user_toObject d).

Definition ErrorResult (r : JsObject) : Prop :=
  ∃ msg : string, r = error_obj msg.

(** The timestamp a returned message carries. *)
Definition msgDateTime_of (o : JsObject) : Z :=
  match get o "msgDateTime" with
  | JDate t => t
  | _ => 0
  end.

(** Order of two stored messages by timestamp. *)
Definition earlier_eq (a b : MessageDocument) : Prop :=
  message_msgDateTime a ≤ message_msgDateTime b.

(** Requests with one field taken away. *)
Definition without_body_field (k : string) (req : Request) : Request :=
  mkRequest (delete k (body req)) (params req).

Definition without_message_field (k : string) (req : Request) : Request :=
  match get (body req) "messageToAdd" with
  | JObj o => mkRequest (<[ "messageToAdd" := JObj (delete k o) ]> (body req))
                        (params req)
  | _ => req
  end.

(** ** An in-memory document store

    A small store for running the services on concrete inputs: users are
    unique by username, every operation fails while [mem_fault] is set. *)

Record MemDB : Type := mkMem {
  mem_users : list UserDocument;
  mem_messages : list MessageDocument;
  mem_fault : option string
}.

Definition mem_guard {A} (d : MemDB) (k : Outcome A * MemDB)
    : Outcome A * MemDB :=
  match mem_fault d with
  | Some m => (Rejected (Error m), d)
  | None => k
  end.

Definition matches_filter (filter0 : JsObject) (u : UserDocument) : bool :=
  strict_equal (get filter0 "username") (JStr (user_username u)).

Definition mem_find_user (filter0 : JsObject) (d : MemDB)
    : option UserDocument :=
  List.find (matches_filter filter0) (mem_users d).

Definition mem_user_create (user : JsObject) (d : MemDB)
    : Outcome UserDocument * MemDB :=
  mem_guard d
    match get user "username", get user "password", get user "dateJoined" with
    | JStr name, JStr pw, JDate t =>
        match mem_find_user user d with
        | Some _ => (Rejected (Error "E11000 duplicate key error"), d)
        | None =>
            let doc := mkUser ("u" +:+ name) name pw t in
            (Resolved doc,
             mkMem (mem_users d ++ [doc]) (mem_messages d) (mem_fault d))
        end
    | _, _, _ => (Rejected (Error "User validation failed"), d)
    end.

Definition mem_user_findOne (filter0 : JsObject) (d : MemDB)
    : Outcome (option UserDocument) * MemDB :=
  mem_guard d (Resolved (mem_find_user filter0 d), d).

Definition mem_user_findOneAndDelete (filter0 : JsObject) (d : MemDB)
    : Outcome (option UserDocument) * MemDB :=
  mem_guard d
    (Resolved (mem_find_user filter0 d),
     mkMem (List.filter (λ u, negb (matches_filter filter0 u)) (mem_users d))
           (mem_messages d) (mem_fault d)).

Definition mem_apply_updates (updates : JsObject) (u : UserDocument)
    : UserDocument :=
  match get updates "password" with
  | JStr pw => mkUser (user_id u) (user_username u) pw (user_dateJoined u)
  | _ => u
  end.

Definition mem_user_findOneAndUpdate (filter0 updates : JsObject) (d : MemDB)
    : Outcome (option UserDocument) * MemDB :=
  mem_guard d
    (Resolved (mem_apply_updates updates <$> mem_find_user filter0 d),
     mkMem (List.map (λ u, if matches_filter filter0 u
                           then mem_apply_updates updates u else u)
                     (mem_users d))
           (mem_messages d) (mem_fault d)).

Definition mem_message_create (m : JsValue) (d : MemDB)
    : Outcome MessageDocument * MemDB :=
  mem_guard d
    match prop m "msg", prop m "msgFrom", prop m "msgDateTime" with
    | JStr text, JStr from, JDate t =>
        let doc := mkMessage ("m" +:+ text) text from t in
        (Resolved doc,
         mkMem (mem_users d) (mem_messages d ++ [doc]) (mem_fault d))
    | _, _, _ => (Rejected (Error "Message validation failed"), d)
    end.

Definition mem_message_find (d : MemDB)
    : Outcome (list MessageDocument) * MemDB :=
  mem_guard d (Resolved (mem_messages d), d).

#[export] Instance MemDB_Database : Database MemDB := {|
  UserModel_create := mem_user_create;
  UserModel_findOne := mem_user_findOne;
  UserModel_findOneAndDelete := mem_user_findOneAndDelete;
  UserModel_findOneAndUpdate := mem_user_findOneAndUpdate;
  MessageModel_create := mem_message_create;
  MessageModel_find := mem_message_find
|}.

(** Sample data, after the test fixtures. *)
Definition sana : UserDocument :=
  mkUser "65e9b5" "sana" "sanaPassword" 1702252800000.

Definition hello : MessageDocument :=
  mkMessage "m1" "Hello" "User1" 1717459200000.
Definition hi : MessageDocument :=
  mkMessage "m2" "Hi" "User2" 1717545600000.
Definition first_msg : MessageDocument :=
  mkMessage "m3" "First" "User1" 1717495200000.
Definition second_msg : MessageDocument :=
  mkMessage "m4" "Second" "User2" 1717495200000.

Definition world0 : World MemDB :=
  mkWorld (mkMem [sana] [hi; first_msg; hello; second_msg] None)
          1717600000000 [].

(** Service doubles that throw, as the controller tests install them. *)
Definition throwing_user_service : UserServiceModule MemDB := {|
  svc_saveUser := λ _, throw (Error "Unexpected error");
  svc_getUserByUsername := λ _, throw (Error "Unexpected error");
  svc_loginUser := λ _, throw (Error "Database connection failed");
  svc_deleteUserByUsername := λ _, throw (Error "Server error");
  svc_updateUser := λ _ _, throw (Error "Database error")
|}.

Definition login_request (name pw : JsValue) : Request :=
  mkRequest (<[ "username" := name ]> {[ "password" := pw ]}) ∅.

Definition username_request (name : JsValue) : Request :=
  mkRequest ∅ {[ "username" := name ]}.

Definition message_request (m : JsValue) : Request :=
  mkRequest {[ "messageToAdd" := m ]} ∅.

Definition world_down : World MemDB :=
  mkWorld (mkMem [sana] [hi; hello] (Some "DB error")) 1717600000000 [].

(** ** client/src/services/messageService.ts

    The browser-side wrappers.  [api] is the HTTP client of [./config]; its
    [post] and [get] are parameters: each takes the network to a response or
    rejects.  [REACT_APP_SERVER_URL] is the server address of the
    environment. *)

Record HttpResponse : Type := mkResponse {
  status : Z;          (* res.status *)
  data : JsValue       (* res.data *)
}.

Class HttpClient (Net : Type) : Type := {
  api_post : string → JsValue → Net → Outcome HttpResponse * Net;
  api_get : string → Net → Outcome HttpResponse * Net
}.

(** One HTTP exchange. *)
Definition http {Net A} (op : Net → Outcome A * Net) : M Net A :=
  λ w, let '(r, n) := op (db w) in (r, mkWorld n (clock w) (trace w)).

Module MessageServiceClient.
Section Client.
Context {Net : Type} `{HttpClient Net} (REACT_APP_SERVER_URL : string).
Local Open Scope js_scope.

Definition MESSAGE_API_URL : string := REACT_APP_SERVER_URL +:+ "/messaging".

(** [const reqBody = { messageToAdd }] *)
Definition reqBody (messageToAdd : JsValue) : JsObject :=
  {[ "messageToAdd" := messageToAdd ]}.

Definition addMessage (messageToAdd : JsValue) : M Net JsValue :=
  let* res := http (api_post (MESSAGE_API_URL +:+ "/addMessage")
                             (JObj (reqBody messageToAdd))) in
  if negb (status res =? 200) && negb (status res =? 201) then
    throw (Error "Error while adding a new message to a chat")
  else ret (data res).

Definition getMessages : M Net JsValue :=
  let* res := http (api_get (MESSAGE_API_URL +:+ "/getMessages")) in
  if negb (status res =? 200) then
    throw (Error "Error when fetching list of chats for the given user")
  else ret (data res).

End Client.
End MessageServiceClient.

(** ** More vocabulary *)

(** The last effect of a handler's run. *)
Definition final_event {DB A} (r : Outcome A * World DB) : option Event :=
  last (trace (snd r)).

Definition is_respond (ev : Event) : bool :=
  match ev with EvRespond _ _ => true | _ => false end.

Definition is_storage (ev : Event) : bool :=
  match ev with EvStorage _ _ => true | _ => false end.

(** A response body with no [password] property. *)
Definition no_password (v : JsValue) : Prop :=
  match v with
  | JObj o => o !! "password" = None
  | _ => True
  end.

(** The text [saveMessage] reports for a failure. *)
Definition failure_text (e : JsError) : string :=
  if String.eqb (message e) "" then "Failed to save message" else message e.

(** A message object whose three required fields are truthy. *)
Definition complete_message (v : JsValue) : Prop :=
  ∃ o : JsObject,
    v = JObj o ∧ truthy (get o "msg") = true
    ∧ truthy (get o "msgFrom") = true ∧ truthy (get o "msgDateTime") = true.

(** An in-memory network for running the client: it answers every request
    with the same response, or fails. *)
Record FixedNet : Type := mkNet {
  net_answer : Outcome HttpResponse;
  net_requests : list (string * JsValue)
}.

#[export] Instance FixedNet_HttpClient : HttpClient FixedNet := {|
  api_post := λ url body0 n,
    (net_answer n, mkNet (net_answer n) (net_requests n ++ [(url, body0)]));
  api_get := λ url n,
    (net_answer n, mkNet (net_answer n) (net_requests n ++ [(url, JUndefined)]))
|}.

Definition browser (answer : Outcome HttpResponse) : World FixedNet :=
  mkWorld (mkNet answer []) 0 [].

Definition hello_request : JsValue :=
  JObj (<[ "msg" := JStr "Hello" ]>
        (<[ "msgFrom" := JStr "sana" ]>
        {[ "msgDateTime" := JDate 1717459200000 ]})).

(** [r] carries the identity of the stored user [d] and no password. *)
Definition projects (r : JsObject) (d : UserDocument) : Prop :=
  r !! "_id" = Some (JObjectId (user_id d))
  ∧ r !! "username" = Some (JStr (user_username d))
  ∧ r !! "dateJoined" = Some (JDate (user_dateJoined d))
  ∧ r !! "password" = None.

(** A handler's run that answers after at most one service call and one
    round trip to the store: either it refuses the request with 400 and
    leaves the store alone, or it calls one service, which makes one storage
    call, and answers with one of [statuses]. *)
Definition one_round_trip {DB} (r : Outcome unit * World DB) (w : World DB)
    (statuses : list Z) : Prop :=
  fst r = Resolved tt
  ∧ ((db (snd r) = db w ∧ ∃ b, trace (snd r) = trace w ++ [EvRespond 400 b])
     ∨ ∃ service args operation oargs st b,
         trace (snd r)
         = trace w ++ [EvCall service args; EvStorage operation oargs;
                       EvRespond st b]
         ∧ st ∈ statuses).

(** * Properties *)

(** ** Objects *)

Lemma error_obj_error msg : error_obj msg !! "error" = Some (JStr msg).
Proof. apply lookup_singleton_eq. Qed.

Lemma error_obj_inj a b : error_obj a = error_obj b → a = b.
Proof.
  intros E. apply (f_equal (λ o : JsObject, o !! "error")) in E.
  rewrite !error_obj_error in E. congruence.
Qed.

Lemma error_obj_other k msg : k ≠ "error" → error_obj msg !! k = None.
Proof. intros Hk. apply lookup_singleton_ne. congruence. Qed.

Lemma has_key_error_obj msg : has_key "error" (error_obj msg) = true.
Proof.
  unfold has_key. apply bool_decide_eq_true. rewrite error_obj_error. eauto.
Qed.

Lemma has_key_false k (o : JsObject) : has_key k o = false ↔ o !! k = None.
Proof.
  unfold has_key. rewrite bool_decide_eq_false, eq_None_not_Some. tauto.
Qed.

Lemma safe_lookup_password d :
  delete "password" (user_toObject d) !! "password" = None.
Proof. apply lookup_delete_eq. Qed.

Lemma safe_lookup_error d :
  delete "password" (user_toObject d) !! "error" = None.
Proof. unfold user_toObject. by simplify_map_eq. Qed.

Lemma safe_lookup_username d :
  delete "password" (user_toObject d) !! "username"
  = Some (JStr (user_username d)).
Proof. unfold user_toObject. by simplify_map_eq. Qed.

Lemma safe_dom d :
  dom (delete "password" (user_toObject d)) = SafeUser_fields.
Proof.
  unfold user_toObject, SafeUser_fields.
  rewrite dom_delete_L, !dom_insert_L, dom_empty_L.
  apply set_eq. intros k. rewrite elem_of_difference, !elem_of_union,
    !elem_of_singleton, elem_of_empty.
  split.
  - intros [[->|[->|[->|[->|[]]]]] Hne]; auto. by destruct Hne.
  - intros [[->| ->]| ->]; split; auto; discriminate.
Qed.

Lemma safe_not_error d msg :
  delete "password" (user_toObject d) ≠ error_obj msg.
Proof.
  intros E. apply (f_equal (λ o : JsObject, o !! "error")) in E.
  rewrite safe_lookup_error, error_obj_error in E. discriminate.
Qed.

(** ** What each user service computes *)

Section UserServiceFacts.
Context {DB : Type} `{Database DB}.

Lemma saveUser_run user (w : World DB) :
  saveUser user w =
  match UserModel_create user (db w) with
  | (Resolved d, s) =>
      (Resolved (delete "password" (user_toObject d)),
       after_storage w "UserModel.create" [JObj user] s)
  | (Rejected e, s) =>
      (Resolved (error_obj ("Error when saving user: " +:+ message e)),
       after_storage w "UserModel.create" [JObj user] s)
  end.
Proof.
  unfold saveUser, try_catch, bind, storage, ret, after_storage.
  destruct (UserModel_create user (db w)) as [[d|e] s]; reflexivity.
Qed.

Lemma getUserByUsername_run name (w : World DB) :
  getUserByUsername name w =
  let w' := after_storage w "UserModel.findOne"
              [JObj {[ "username" := name ]}] in
  match UserModel_findOne {[ "username" := name ]} (db w) with
  | (Resolved (Some d), s) =>
      (Resolved (delete "password" (user_toObject d)), w' s)
  | (Resolved None, s) => (Resolved (error_obj "User not found"), w' s)
  | (Rejected e, s) =>
      (Resolved (error_obj ("Error when saving user: " +:+ message e)), w' s)
  end.
Proof.
  unfold getUserByUsername, try_catch, bind, storage, ret, after_storage.
  destruct (UserModel_findOne _ (db w)) as [[[d|]|e] s]; reflexivity.
Qed.

Lemma loginUser_run c (w : World DB) :
  loginUser c w =
  let w' := after_storage w "UserModel.findOne"
              [JObj {[ "username" := username c ]}] in
  match UserModel_findOne {[ "username" := username c ]} (db w) with
  | (Resolved (Some d), s) =>
      if strict_equal (JStr (user_password d)) (password c)
      then (Resolved (delete "password" (user_toObject d)), w' s)
      else (Resolved (error_obj "Invalid username or password."), w' s)
  | (Resolved None, s) => (Resolved (error_obj "User not found."), w' s)
  | (Rejected e, s) =>
      (Resolved (error_obj
                   ("Error logging in user saving user: " +:+ message e)),
       w' s)
  end.
Proof.
  unfold loginUser, try_catch, bind, storage, ret, after_storage.
  destruct (UserModel_findOne _ (db w)) as [[[d|]|e] s]; try reflexivity.
  destruct (strict_equal _ _); reflexivity.
Qed.

Lemma deleteUserByUsername_run name (w : World DB) :
  deleteUserByUsername name w =
  let w' := after_storage w "UserModel.findOneAndDelete"
              [JObj {[ "username" := name ]}] in
  match UserModel_findOneAndDelete {[ "username" := name ]} (db w) with
  | (Resolved (Some d), s) =>
      (Resolved (delete "password" (user_toObject d)), w' s)
  | (Resolved None, s) => (Resolved (error_obj "User not found."), w' s)
  | (Rejected e, s) =>
      (Resolved (error_obj ("Error deleting user: " +:+ message e)), w' s)
  end.
Proof.
  unfold deleteUserByUsername, try_catch, bind, storage, ret, after_storage.
  destruct (UserModel_findOneAndDelete _ (db w)) as [[[d|]|e] s];
    reflexivity.
Qed.

Lemma updateUser_run name updates (w : World DB) :
  updateUser name updates w =
  let w' := after_storage w "UserModel.findOneAndUpdate"
              [JObj {[ "username" := name ]}; JObj updates] in
  match UserModel_findOneAndUpdate {[ "username" := name ]} updates (db w) with
  | (Resolved (Some d), s) =>
      (Resolved (delete "password" (user_toObject d)), w' s)
  | (Resolved None, s) => (Resolved (error_obj "User not found."), w' s)
  | (Rejected e, s) =>
      (Resolved (error_obj ("Error updating user: " +:+ message e)), w' s)
  end.
Proof.
  unfold updateUser, try_catch, bind, storage, ret, after_storage.
  destruct (UserModel_findOneAndUpdate _ _ (db w)) as [[[d|]|e] s];
    reflexivity.
Qed.

(** Every user service resolves, with the safe projection of a stored user
    or with an error object. *)
Lemma user_service_result (run : M DB JsObject) :
  (∃ user, run = saveUser user) ∨ (∃ name, run = getUserByUsername name)
  ∨ (∃ c, run = loginUser c) ∨ (∃ name, run = deleteUserByUsername name)
  ∨ (∃ name updates, run = updateUser name updates) →
  ∀ w, ∃ r w', run w = (Resolved r, w') ∧ (SafeUser r ∨ ErrorResult r).
Proof.
  unfold SafeUser, ErrorResult.
  intros [[u ->]|[[n ->]|[[c ->]|[[n ->]|[n [u ->]]]]]] w.
  - rewrite saveUser_run.
    destruct (UserModel_create _ _) as [[d|e] s]; eauto 6.
  - rewrite getUserByUsername_run.
    destruct (UserModel_findOne _ _) as [[[d|]|e] s]; simpl; eauto 6.
  - rewrite loginUser_run.
    destruct (UserModel_findOne _ _) as [[[d|]|e] s]; cbv zeta; eauto 6.
    destruct (strict_equal _ _); eauto 6.
  - rewrite deleteUserByUsername_run.
    destruct (UserModel_findOneAndDelete _ _) as [[[d|]|e] s]; simpl; eauto 6.
  - rewrite updateUser_run.
    destruct (UserModel_findOneAndUpdate _ _ _) as [[[d|]|e] s];
      simpl; eauto 6.
Qed.

End UserServiceFacts.

(** ** The user services *)

(** C1: whichever of the five user service operations runs, and on whatever
    input and store, the object it returns has no [password] field; when the
    operation succeeds (the result is not an error object) its fields are
    exactly [_id], [username] and [dateJoined]. *)
Theorem user_services_return_safe_user {DB : Type} `{Database DB}
    (run : M DB JsObject) (w w' : World DB) (r : JsObject) :
  (∃ user, run = saveUser user) ∨ (∃ name, run = getUserByUsername name)
  ∨ (∃ c, run = loginUser c) ∨ (∃ name, run = deleteUserByUsername name)
  ∨ (∃ name updates, run = updateUser name updates) →
  run w = (Resolved r, w') →
  has_key "error" r = false →
  r !! "password" = None ∧ dom r = SafeUser_fields.
Proof.
  intros Hrun Hw Hok.
  destruct (user_service_result run Hrun w) as (r0 & w0 & E & Hr).
  rewrite E in Hw. injection Hw as -> ->.
  destruct Hr as [[d ->]|[msg ->]].
  - split; [apply safe_lookup_password | apply safe_dom].
  - rewrite has_key_error_obj in Hok. discriminate.
Qed.

Lemma user_services_return_safe_user_witness :
  delete "password" (user_toObject sana) !! "password" = None
  ∧ dom (delete "password" (user_toObject sana)) = SafeUser_fields.
Proof.
  apply (user_services_return_safe_user
           (loginUser (mkCredentials (JStr "sana") (JStr "sanaPassword")))
           world0
           (after_storage world0 "UserModel.findOne"
              [JObj {[ "username" := JStr "sana" ]}] (db world0))).
  - right; right; left. eexists. reflexivity.
  - reflexivity.
  - reflexivity.
Defined.

(** C2: [loginUser] answers "User not found." exactly when the store finds
    no user with the given username, and "Invalid username or password."
    exactly when it finds one whose stored password is not identical to the
    supplied one. *)
Theorem loginUser_error_messages {DB : Type} `{Database DB}
    (c : UserCredentials) (w : World DB) :
  let found := fst (UserModel_findOne {[ "username" := username c ]} (db w)) in
  ∃ r w', loginUser c w = (Resolved r, w')
    ∧ (r = error_obj "User not found." ↔ found = Resolved None)
    ∧ (r = error_obj "Invalid username or password." ↔
       ∃ u, found = Resolved (Some u)
            ∧ strict_equal (JStr (user_password u)) (password c) = false).
Proof.
  intros found. subst found. rewrite loginUser_run.
  destruct (UserModel_findOne _ (db w)) as [[[d|]|e] s]; cbv zeta; simpl fst.
  - destruct (strict_equal (JStr (user_password d)) (password c)) eqn:Epw.
    + eexists _, _. split; [reflexivity|]. split; split.
      * intros E. by apply safe_not_error in E.
      * discriminate.
      * intros E. by apply safe_not_error in E.
      * intros (u & [= <-] & Hu). congruence.
    + eexists _, _. split; [reflexivity|]. split; split.
      * intros E%error_obj_inj. discriminate.
      * discriminate.
      * eauto.
      * reflexivity.
  - eexists _, _. split; [reflexivity|]. split; split.
    + reflexivity.
    + reflexivity.
    + intros E%error_obj_inj. discriminate.
    + intros (u & [=] & _).
  - eexists _, _. split; [reflexivity|]. split; split.
    + intros E%error_obj_inj. discriminate.
    + discriminate.
    + intros E%error_obj_inj. discriminate.
    + intros (u & [=] & _).
Qed.

(** C5: each of the five user services resolves on every input and every
    store, with a safe user or with an error object; when the storage call
    rejects, the result is an error object whose text carries the message of
    the exception. *)
Theorem user_services_total {DB : Type} `{Database DB} (w : World DB) :
  (∀ user, ∃ r w',
     saveUser user w = (Resolved r, w') ∧ (SafeUser r ∨ ErrorResult r)
     ∧ ∀ e s, UserModel_create user (db w) = (Rejected e, s) →
         ∃ prefix, r = error_obj (prefix +:+ message e))
  ∧ (∀ name, ∃ r w',
     getUserByUsername name w = (Resolved r, w')
     ∧ (SafeUser r ∨ ErrorResult r)
     ∧ ∀ e s, UserModel_findOne {[ "username" := name ]} (db w)
              = (Rejected e, s) →
         ∃ prefix, r = error_obj (prefix +:+ message e))
  ∧ (∀ c, ∃ r w',
     loginUser c w = (Resolved r, w') ∧ (SafeUser r ∨ ErrorResult r)
     ∧ ∀ e s, UserModel_findOne {[ "username" := username c ]} (db w)
              = (Rejected e, s) →
         ∃ prefix, r = error_obj (prefix +:+ message e))
  ∧ (∀ name, ∃ r w',
     deleteUserByUsername name w = (Resolved r, w')
     ∧ (SafeUser r ∨ ErrorResult r)
     ∧ ∀ e s, UserModel_findOneAndDelete {[ "username" := name ]} (db w)
              = (Rejected e, s) →
         ∃ prefix, r = error_obj (prefix +:+ message e))
  ∧ (∀ name updates, ∃ r w',
     updateUser name updates w = (Resolved r, w')
     ∧ (SafeUser r ∨ ErrorResult r)
     ∧ ∀ e s, UserModel_findOneAndUpdate {[ "username" := name ]} updates
                (db w) = (Rejected e, s) →
         ∃ prefix, r = error_obj (prefix +:+ message e)).
Proof.
  unfold SafeUser, ErrorResult. repeat split.
  - intros user. rewrite saveUser_run.
    destruct (UserModel_create _ _) as [[d|e] s];
      eexists _, _; (split; [reflexivity|]); split; eauto;
      intros ? ? [= <- _]; eauto.
  - intros name. rewrite getUserByUsername_run.
    destruct (UserModel_findOne _ _) as [[[d|]|e] s]; cbv zeta;
      eexists _, _; (split; [reflexivity|]); split; eauto;
      intros ? ? [= <- _]; eauto.
  - intros c. rewrite loginUser_run.
    destruct (UserModel_findOne _ _) as [[[d|]|e] s]; cbv zeta;
      [destruct (strict_equal _ _)| |];
      eexists _, _; (split; [reflexivity|]); split; eauto;
      intros ? ? [= <- _]; eauto.
  - intros name. rewrite deleteUserByUsername_run.
    destruct (UserModel_findOneAndDelete _ _) as [[[d|]|e] s]; cbv zeta;
      eexists _, _; (split; [reflexivity|]); split; eauto;
      intros ? ? [= <- _]; eauto.
  - intros name updates. rewrite updateUser_run.
    destruct (UserModel_findOneAndUpdate _ _ _) as [[[d|]|e] s]; cbv zeta;
      eexists _, _; (split; [reflexivity|]); split; eauto;
      intros ? ? [= <- _]; eauto.
Qed.

Example saveUser_duplicate :
  fst (saveUser (userToSave_obj (login_request (JStr "sana") (JStr "x")) 0)
         world0)
  = Resolved (error_obj "Error when saving user: E11000 duplicate key error").
Proof. reflexivity. Qed.

(** ** The message service *)

Lemma sort_insert_perm dir d l : sort_insert dir d l ≡ₚ d :: l.
Proof.
  induction l as [|d' l IH]; simpl; [done|].
  destruct (comes_first dir d d'); [done|].
  rewrite IH. apply Permutation_swap.
Qed.

Lemma query_sort_perm dir l : query_sort dir l ≡ₚ l.
Proof.
  unfold query_sort. induction l as [|d l IH]; simpl; [done|].
  by rewrite sort_insert_perm, IH.
Qed.

Lemma sort_insert_sorted d l :
  StronglySorted earlier_eq l → StronglySorted earlier_eq (sort_insert 1 d l).
Proof.
  induction 1 as [|d' l Hl IH Hd']; simpl.
  - repeat constructor.
  - unfold comes_first. simpl.
    destruct (Z.leb_spec (message_msgDateTime d) (message_msgDateTime d')).
    + constructor; [by constructor|]. constructor; [done|].
      eapply Forall_impl; [exact Hd'|]. unfold earlier_eq. simpl. lia.
    + constructor; [done|]. rewrite sort_insert_perm.
      constructor; [unfold earlier_eq; lia | done].
Qed.

Lemma query_sort_sorted l : StronglySorted earlier_eq (query_sort 1 l).
Proof.
  unfold query_sort. induction l; simpl; [constructor|].
  by apply sort_insert_sorted.
Qed.

(** Among the messages that carry one timestamp, insertion puts the new one
    first and leaves the others as they were. *)
Lemma sort_insert_filter (t : Z) d (l : list MessageDocument) :
  filter (λ m, message_msgDateTime m = t) (sort_insert 1 d l)
  = filter (λ m, message_msgDateTime m = t) (d :: l).
Proof.
  induction l as [|d' l IH]; simpl; [done|].
  unfold comes_first. simpl.
  destruct (Z.leb_spec (message_msgDateTime d) (message_msgDateTime d'));
    [done|].
  rewrite (filter_cons _ d'), IH, !filter_cons.
  repeat case_decide; try done; lia.
Qed.

Lemma query_sort_stable (t : Z) (l : list MessageDocument) :
  filter (λ m, message_msgDateTime m = t) (query_sort 1 l)
  = filter (λ m, message_msgDateTime m = t) l.
Proof.
  unfold query_sort. induction l as [|d l IH]; simpl; [done|].
  rewrite sort_insert_filter, !filter_cons, IH. done.
Qed.

Lemma msgDateTime_of_toObject d :
  msgDateTime_of (message_toObject d) = message_msgDateTime d.
Proof. unfold msgDateTime_of, get, message_toObject. by simplify_map_eq. Qed.

Lemma toObject_filter (t : Z) (l : list MessageDocument) :
  filter (λ o, msgDateTime_of o = t) (message_toObject <$> l)
  = message_toObject <$> filter (λ m, message_msgDateTime m = t) l.
Proof.
  induction l as [|d l IH]; [done|].
  rewrite fmap_cons, !filter_cons, msgDateTime_of_toObject, IH.
  by case_decide.
Qed.

Lemma toObject_sorted (l : list MessageDocument) :
  StronglySorted earlier_eq l →
  StronglySorted (λ a b, msgDateTime_of a ≤ msgDateTime_of b)
                 (message_toObject <$> l).
Proof.
  induction 1 as [|d l Hl IH Hd]; [constructor|].
  rewrite fmap_cons. constructor; [done|].
  apply Forall_fmap. eapply Forall_impl; [exact Hd|].
  intros d'. unfold earlier_eq. by rewrite !msgDateTime_of_toObject.
Qed.

Section MessageServiceFacts.
Context {DB : Type} `{Database DB}.

Lemma getMessages_run (w : World DB) :
  getMessages w =
  match MessageModel_find (db w) with
  | (Resolved docs, s) =>
      (Resolved (message_toObject <$> query_sort 1 docs),
       after_storage w "MessageModel.find" [] s)
  | (Rejected e, s) => (Resolved [], after_storage w "MessageModel.find" [] s)
  end.
Proof.
  unfold getMessages, find_sort_exec, try_catch, bind, storage, ret,
    after_storage.
  destruct (MessageModel_find (db w)) as [[docs|e] s]; reflexivity.
Qed.

Lemma saveMessage_run m (w : World DB) :
  saveMessage m w =
  match MessageModel_create m (db w) with
  | (Resolved d, s) =>
      (Resolved (message_toObject d),
       after_storage w "MessageModel.create" [m] s)
  | (Rejected e, s) =>
      (Resolved (error_obj (if String.eqb (message e) ""
                            then "Failed to save message" else message e)),
       after_storage w "MessageModel.create" [m] s)
  end.
Proof.
  unfold saveMessage, try_catch, bind, storage, ret, after_storage.
  destruct (MessageModel_create m (db w)) as [[d|e] s]; reflexivity.
Qed.

End MessageServiceFacts.

(** C3: [getMessages] always resolves with a list: the empty list when the
    storage query rejects, and otherwise all the stored messages. *)
Theorem getMessages_never_fails {DB : Type} `{Database DB} (w : World DB) :
  ∃ l w', getMessages w = (Resolved l, w')
    ∧ (∀ e s, MessageModel_find (db w) = (Rejected e, s) → l = [])
    ∧ (∀ docs s, MessageModel_find (db w) = (Resolved docs, s) →
         l ≡ₚ message_toObject <$> docs).
Proof.
  rewrite getMessages_run.
  destruct (MessageModel_find (db w)) as [[docs|e] s];
    eexists _, _; (split; [reflexivity|]); split; try congruence.
  intros ? ? [= <- <-]. by rewrite query_sort_perm.
Qed.

(** C4: the list [getMessages] returns is in non-decreasing order of
    [msgDateTime], holds every stored message, and keeps messages of equal
    [msgDateTime] in the order in which storage returned them. *)
Theorem getMessages_sorted_stable {DB : Type} `{Database DB}
    (w : World DB) (docs : list MessageDocument) (s : DB) :
  MessageModel_find (db w) = (Resolved docs, s) →
  ∃ l w', getMessages w = (Resolved l, w')
    ∧ StronglySorted (λ a b, msgDateTime_of a ≤ msgDateTime_of b) l
    ∧ l ≡ₚ message_toObject <$> docs
    ∧ ∀ t : Z, filter (λ o, msgDateTime_of o = t) l
               = filter (λ o, msgDateTime_of o = t)
                   (message_toObject <$> docs).
Proof.
  intros Hfind. rewrite getMessages_run, Hfind.
  eexists _, _. split; [reflexivity|]. split; [|split].
  - apply toObject_sorted, query_sort_sorted.
  - by rewrite query_sort_perm.
  - intros t. by rewrite !toObject_filter, query_sort_stable.
Qed.

Lemma getMessages_sorted_stable_witness :
  ∃ l w', getMessages world0 = (Resolved l, w')
    ∧ StronglySorted (λ a b, msgDateTime_of a ≤ msgDateTime_of b) l
    ∧ l ≡ₚ message_toObject <$> [hi; first_msg; hello; second_msg]
    ∧ ∀ t : Z, filter (λ o, msgDateTime_of o = t) l
               = filter (λ o, msgDateTime_of o = t)
                   (message_toObject <$> [hi; first_msg; hello; second_msg]).
Proof.
  apply (getMessages_sorted_stable world0 [hi; first_msg; hello; second_msg]
           (db world0)).
  reflexivity.
Defined.

Example getMessages_world0 :
  fst (getMessages world0)
  = Resolved (message_toObject <$> [hello; first_msg; second_msg; hi]).
Proof. reflexivity. Qed.

Example getMessages_world_down : fst (getMessages world_down) = Resolved [].
Proof. reflexivity. Qed.

(** ** The user controller *)

Ltac handler_cases :=
  unfold call, respond, try_catch, bind, log, new_Date, reply, then_event,
    credentials_obj, userToSave_obj;
  simpl;
  match goal with
  | |- context [let (_, _) := ?served in _] =>
      match type of served with
      | (Outcome JsObject * _)%type => destruct served as [[?r|?e] ?w1]
      end
  end;
  simpl; [destruct (has_key "error" _)|]; reflexivity.

Section UserControllerFacts.
Context {DB : Type} (util : UserServiceModule DB).

Lemma then_event_inv (w w' : World DB) ev ev' :
  then_event w ev = then_event w' ev' → ev = ev'.
Proof.
  unfold then_event. intros [= _ _ E]. by apply app_inj_tail in E as [_ ?].
Qed.

Lemma createUser_invalid req (w : World DB) :
  isUserBodyValid req = false →
  createUser util req w
  = (Resolved tt,
     then_event w (EvRespond 400
       (JObj (error_obj "Username and password are required.")))).
Proof. unfold createUser. by intros ->. Qed.

Lemma createUser_valid req (w : World DB) :
  isUserBodyValid req = true →
  createUser util req w
  = reply 400 201
      (svc_saveUser util (userToSave_obj req (clock w))
         (then_event w (EvCall "saveUser"
                          [JObj (userToSave_obj req (clock w))]))).
Proof.
  unfold createUser. simpl. intros ->. simpl. handler_cases.
Qed.

Lemma userLogin_invalid req (w : World DB) :
  truthy (get (body req) "username") && truthy (get (body req) "password")
  = false →
  userLogin util req w
  = (Resolved tt,
     then_event w (EvRespond 400
       (JObj (error_obj "Username and password are required.")))).
Proof.
  unfold userLogin. intros E. rewrite <- negb_andb, E. reflexivity.
Qed.

Lemma userLogin_valid req (w : World DB) :
  let c := mkCredentials (get (body req) "username")
                         (get (body req) "password") in
  truthy (username c) = true → truthy (password c) = true →
  userLogin util req w
  = reply 401 200
      (svc_loginUser util c
         (then_event w (EvCall "loginUser" [JObj (credentials_obj c)]))).
Proof.
  unfold userLogin. simpl. intros -> ->. simpl. handler_cases.
Qed.

Lemma getUser_invalid req (w : World DB) :
  truthy (get (params req) "username") = false →
  getUser util req w
  = (Resolved tt,
     then_event w (EvRespond 400
       (JObj (error_obj "Username parameter is required.")))).
Proof. unfold getUser. by intros ->. Qed.

Lemma getUser_valid req (w : World DB) :
  let name := get (params req) "username" in
  truthy name = true →
  getUser util req w
  = reply 404 200
      (svc_getUserByUsername util name
         (then_event w (EvCall "getUserByUsername" [name]))).
Proof.
  unfold getUser. simpl. intros ->. simpl. handler_cases.
Qed.

Lemma deleteUser_invalid req (w : World DB) :
  truthy (get (params req) "username") = false →
  deleteUser util req w
  = (Resolved tt,
     then_event w (EvRespond 400
       (JObj (error_obj "Username parameter is required.")))).
Proof. unfold deleteUser. by intros ->. Qed.

Lemma deleteUser_valid req (w : World DB) :
  let name := get (params req) "username" in
  truthy name = true →
  deleteUser util req w
  = reply 404 200
      (svc_deleteUserByUsername util name
         (then_event w (EvCall "deleteUserByUsername" [name]))).
Proof.
  unfold deleteUser. simpl. intros ->. simpl. handler_cases.
Qed.

Lemma resetPassword_invalid req (w : World DB) :
  truthy (get (body req) "username") && truthy (get (body req) "password")
  = false →
  resetPassword util req w
  = (Resolved tt,
     then_event w (EvRespond 400
       (JObj (error_obj "Username and new password are required.")))).
Proof.
  unfold resetPassword. intros E. rewrite <- negb_andb, E. reflexivity.
Qed.

Lemma resetPassword_valid req (w : World DB) :
  let name := get (body req) "username" in
  let pw := get (body req) "password" in
  truthy name = true → truthy pw = true →
  resetPassword util req w
  = reply 404 200
      (svc_updateUser util name {[ "password" := pw ]}
         (then_event w (EvCall "updateUser"
                          [name; JObj {[ "password" := pw ]}]))).
Proof.
  unfold resetPassword. simpl. intros -> ->. simpl. handler_cases.
Qed.

(** A handler that answered 500 had a service that threw. *)
Lemma reply_500 err_status ok_status
    (served : Outcome JsObject * World DB) (w' : World DB) body0 :
  err_status ≠ 500 → ok_status ≠ 500 →
  reply err_status ok_status served
  = (Resolved tt, then_event w' (EvRespond 500 body0)) →
  ∃ e, fst served = Rejected e.
Proof.
  intros He Ho. unfold reply. destruct served as [[r|e] w1]; [|eauto].
  destruct (has_key "error" r); intros E; apply (f_equal snd) in E;
    apply then_event_inv in E; congruence.
Qed.

End UserControllerFacts.

Section UserControllerErrors.
Context {DB : Type} (util : UserServiceModule DB).

Lemma invalid_not_500 (w w' : World DB) body0 body1 :
  (Resolved tt, then_event w (EvRespond 400 body0))
  ≠ (Resolved tt, then_event w' (EvRespond 500 body1)).
Proof.
  intros E. apply (f_equal snd), then_event_inv in E. discriminate.
Qed.

Lemma userLogin_500 req (w w' : World DB) body0 :
  userLogin util req w = (Resolved tt, then_event w' (EvRespond 500 body0)) →
  ∃ e, fst (svc_loginUser util
              (mkCredentials (get (body req) "username")
                             (get (body req) "password"))
              (then_event w (EvCall "loginUser"
                 [JObj (credentials_obj
                          (mkCredentials (get (body req) "username")
                                         (get (body req) "password")))])))
       = Rejected e.
Proof.
  destruct (truthy (get (body req) "username")) eqn:Eu;
    [destruct (truthy (get (body req) "password")) eqn:Ep|].
  - rewrite userLogin_valid by done. by apply reply_500.
  - rewrite userLogin_invalid by (by rewrite Eu, Ep).
    intros E. by apply invalid_not_500 in E.
  - rewrite userLogin_invalid by (by rewrite Eu).
    intros E. by apply invalid_not_500 in E.
Qed.

Lemma resetPassword_500 req (w w' : World DB) body0 :
  resetPassword util req w
  = (Resolved tt, then_event w' (EvRespond 500 body0)) →
  ∃ e, fst (svc_updateUser util (get (body req) "username")
              {[ "password" := get (body req) "password" ]}
              (then_event w (EvCall "updateUser"
                 [get (body req) "username";
                  JObj {[ "password" := get (body req) "password" ]}])))
       = Rejected e.
Proof.
  destruct (truthy (get (body req) "username")) eqn:Eu;
    [destruct (truthy (get (body req) "password")) eqn:Ep|].
  - rewrite resetPassword_valid by done. by apply reply_500.
  - rewrite resetPassword_invalid by (by rewrite Eu, Ep).
    intros E. by apply invalid_not_500 in E.
  - rewrite resetPassword_invalid by (by rewrite Eu).
    intros E. by apply invalid_not_500 in E.
Qed.

Lemma getUser_500 req (w w' : World DB) body0 :
  getUser util req w = (Resolved tt, then_event w' (EvRespond 500 body0)) →
  ∃ e, fst (svc_getUserByUsername util (get (params req) "username")
              (then_event w (EvCall "getUserByUsername"
                 [get (params req) "username"])))
       = Rejected e.
Proof.
  destruct (truthy (get (params req) "username")) eqn:Eu.
  - rewrite getUser_valid by done. by apply reply_500.
  - rewrite getUser_invalid by done.
    intros E. by apply invalid_not_500 in E.
Qed.

Lemma deleteUser_500 req (w w' : World DB) body0 :
  deleteUser util req w = (Resolved tt, then_event w' (EvRespond 500 body0)) →
  ∃ e, fst (svc_deleteUserByUsername util (get (params req) "username")
              (then_event w (EvCall "deleteUserByUsername"
                 [get (params req) "username"])))
       = Rejected e.
Proof.
  destruct (truthy (get (params req) "username")) eqn:Eu.
  - rewrite deleteUser_valid by done. by apply reply_500.
  - rewrite deleteUser_invalid by done.
    intros E. by apply invalid_not_500 in E.
Qed.

End UserControllerErrors.

(** C6: for a request that passes validation, every user endpoint answers
    the outcome of its service call by the table [reply]: an error result
    gets 401 (login) or 404 (get-user, delete-user, reset-password), a
    thrown exception gets 500 with the body [{error: "Server error."}], and
    a success gets 200, or 201 for signup.  With the services of the
    application, fetching or deleting a username that the store does not
    hold answers 404 with an error text containing "User not found". *)
Theorem userController_status_mapping {DB : Type} `{Database DB}
    (util : UserServiceModule DB) (req : Request) (w : World DB) :
  let name := get (params req) "username" in
  let c := mkCredentials (get (body req) "username")
                         (get (body req) "password") in
  (truthy (username c) = true → truthy (password c) = true →
     userLogin util req w
     = reply 401 200
         (svc_loginUser util c
            (then_event w (EvCall "loginUser" [JObj (credentials_obj c)])))
     ∧ resetPassword util req w
       = reply 404 200
           (svc_updateUser util (username c) {[ "password" := password c ]}
              (then_event w
                 (EvCall "updateUser"
                    [username c; JObj {[ "password" := password c ]}])))
     ∧ createUser util req w
       = reply 400 201
           (svc_saveUser util (userToSave_obj req (clock w))
              (then_event w
                 (EvCall "saveUser" [JObj (userToSave_obj req (clock w))]))))
  ∧ (truthy name = true →
     getUser util req w
     = reply 404 200
         (svc_getUserByUsername util name
            (then_event w (EvCall "getUserByUsername" [name])))
     ∧ deleteUser util req w
       = reply 404 200
           (svc_deleteUserByUsername util name
              (then_event w (EvCall "deleteUserByUsername" [name])))
     ∧ (∀ s, UserModel_findOne {[ "username" := name ]} (db w)
             = (Resolved None, s) →
          ∃ w' body0,
            getUser userService req w
            = (Resolved tt, then_event w' (EvRespond 404 body0))
            ∧ error_body_contains body0 "User not found" = true)
     ∧ (∀ s, UserModel_findOneAndDelete {[ "username" := name ]} (db w)
             = (Resolved None, s) →
          ∃ w' body0,
            deleteUser userService req w
            = (Resolved tt, then_event w' (EvRespond 404 body0))
            ∧ error_body_contains body0 "User not found" = true)).
Proof.
  intros name c. split.
  - intros Hu Hp. split; [|split].
    + by apply userLogin_valid.
    + by apply resetPassword_valid.
    + apply createUser_valid. unfold isUserBodyValid.
      simpl in Hu, Hp. by rewrite Hu, Hp.
  - intros Hn. split; [|split; [|split]].
    + by apply getUser_valid.
    + by apply deleteUser_valid.
    + intros s Hs. rewrite getUser_valid by done. simpl.
      rewrite getUserByUsername_run. simpl. fold name. rewrite Hs.
      eexists _, _. split; [reflexivity|]. reflexivity.
    + intros s Hs. rewrite deleteUser_valid by done. simpl.
      rewrite deleteUserByUsername_run. simpl. fold name. rewrite Hs.
      eexists _, _. split; [reflexivity|]. reflexivity.
Qed.

Lemma userController_status_mapping_witness :
  userLogin throwing_user_service
    (login_request (JStr "sana") (JStr "sanaPassword")) world0
  = (Resolved tt,
     mkWorld (db world0) (clock world0)
       [EvCall "loginUser"
          [JObj (credentials_obj
                   (mkCredentials (JStr "sana") (JStr "sanaPassword")))];
        EvRespond 500 (JObj (error_obj "Server error."))])
  ∧ ∃ w' body0,
      getUser userService (username_request (JStr "randomUser")) world0
      = (Resolved tt, then_event w' (EvRespond 404 body0))
      ∧ error_body_contains body0 "User not found" = true.
Proof.
  split.
  - exact (proj1 (proj1 (userController_status_mapping throwing_user_service
                    (login_request (JStr "sana") (JStr "sanaPassword"))
                    world0) eq_refl eq_refl)).
  - destruct (proj2 (userController_status_mapping throwing_user_service
                       (username_request (JStr "randomUser")) world0)
                eq_refl) as (_ & _ & Hget & _).
    exact (Hget (db world0) eq_refl).
Defined.

(** C9: with the services of the application, a storage failure inside the
    service is answered with the not-found-style status, 401 for login and
    404 for get-user, delete-user and reset-password, the error text ending
    with the message of the failure; and whatever the service module, a handler
    answers 500 only if its service call threw. *)
Theorem storage_failure_answers_like_not_found {DB : Type} `{Database DB}
    (req : Request) (w : World DB) (e : JsError) (s : DB) :
  let name := get (params req) "username" in
  let c := mkCredentials (get (body req) "username")
                         (get (body req) "password") in
  (truthy (username c) = true → truthy (password c) = true →
     (UserModel_findOne {[ "username" := username c ]} (db w)
      = (Rejected e, s) →
      ∃ w' prefix, userLogin userService req w
            = (Resolved tt,
               then_event w'
                 (EvRespond 401
                    (JObj (error_obj (prefix +:+ message e))))))
     ∧ (UserModel_findOneAndUpdate {[ "username" := username c ]}
          {[ "password" := password c ]} (db w) = (Rejected e, s) →
        ∃ w' prefix, resetPassword userService req w
              = (Resolved tt,
                 then_event w'
                   (EvRespond 404
                      (JObj (error_obj (prefix +:+ message e)))))))
  ∧ (truthy name = true →
     (UserModel_findOne {[ "username" := name ]} (db w) = (Rejected e, s) →
      ∃ w' prefix, getUser userService req w
            = (Resolved tt,
               then_event w'
                 (EvRespond 404
                    (JObj (error_obj (prefix +:+ message e))))))
     ∧ (UserModel_findOneAndDelete {[ "username" := name ]} (db w)
        = (Rejected e, s) →
        ∃ w' prefix, deleteUser userService req w
              = (Resolved tt,
                 then_event w'
                   (EvRespond 404
                      (JObj (error_obj (prefix +:+ message e)))))))
  ∧ (∀ (util : UserServiceModule DB) (w' : World DB) (body0 : JsValue),
       (userLogin util req w
        = (Resolved tt, then_event w' (EvRespond 500 body0)) →
        ∃ e', fst (svc_loginUser util c
                     (then_event w
                        (EvCall "loginUser" [JObj (credentials_obj c)])))
              = Rejected e')
       ∧ (resetPassword util req w
          = (Resolved tt, then_event w' (EvRespond 500 body0)) →
          ∃ e', fst (svc_updateUser util (username c)
                       {[ "password" := password c ]}
                       (then_event w
                          (EvCall "updateUser"
                             [username c;
                              JObj {[ "password" := password c ]}])))
                = Rejected e')
       ∧ (getUser util req w
          = (Resolved tt, then_event w' (EvRespond 500 body0)) →
          ∃ e', fst (svc_getUserByUsername util name
                       (then_event w (EvCall "getUserByUsername" [name])))
                = Rejected e')
       ∧ (deleteUser util req w
          = (Resolved tt, then_event w' (EvRespond 500 body0)) →
          ∃ e', fst (svc_deleteUserByUsername util name
                       (then_event w (EvCall "deleteUserByUsername" [name])))
                = Rejected e')).
Proof.
  intros name c. split; [|split].
  - intros Hu Hp. split; intros Hs.
    + rewrite userLogin_valid by done. simpl.
      rewrite loginUser_run. simpl. simpl in Hs. rewrite Hs.
      unfold reply. rewrite has_key_error_obj.
      eexists _, _. unfold get. rewrite error_obj_error. reflexivity.
    + rewrite resetPassword_valid by done. simpl.
      rewrite updateUser_run. simpl. simpl in Hs. rewrite Hs.
      unfold reply. rewrite has_key_error_obj.
      eexists _, _. unfold get. rewrite error_obj_error. reflexivity.
  - intros Hn. split; intros Hs.
    + rewrite getUser_valid by done. simpl.
      rewrite getUserByUsername_run. simpl. fold name. rewrite Hs.
      unfold reply. rewrite has_key_error_obj.
      eexists _, _. unfold get. rewrite error_obj_error. reflexivity.
    + rewrite deleteUser_valid by done. simpl.
      rewrite deleteUserByUsername_run. simpl. fold name. rewrite Hs.
      unfold reply. rewrite has_key_error_obj.
      eexists _, _. unfold get. rewrite error_obj_error. reflexivity.
  - intros util w' body0. repeat split.
    + apply userLogin_500.
    + apply resetPassword_500.
    + apply getUser_500.
    + apply deleteUser_500.
Qed.

Lemma storage_failure_answers_like_not_found_witness :
  (∃ w' prefix,
     userLogin userService
       (login_request (JStr "sana") (JStr "sanaPassword")) world_down
     = (Resolved tt,
        then_event w'
          (EvRespond 401 (JObj (error_obj (prefix +:+ "DB error"))))))
  ∧ (∃ w' prefix,
       getUser userService (username_request (JStr "sana")) world_down
       = (Resolved tt,
          then_event w'
            (EvRespond 404 (JObj (error_obj (prefix +:+ "DB error")))))).
Proof.
  split.
  - exact (proj1 (proj1 (storage_failure_answers_like_not_found
                    (login_request (JStr "sana") (JStr "sanaPassword"))
                    world_down (Error "DB error") (db world_down))
                    eq_refl eq_refl) eq_refl).
  - exact (proj1 (proj1 (proj2 (storage_failure_answers_like_not_found
                     (username_request (JStr "sana"))
                     world_down (Error "DB error") (db world_down)))
                    eq_refl) eq_refl).
Defined.

(** ** The message controller *)

Lemma has_key_message_toObject d :
  has_key "error" (message_toObject d) = false.
Proof.
  apply has_key_false. unfold message_toObject. by simplify_map_eq.
Qed.

Lemma calls_then_respond (t : list Event) status body0 :
  calls (t ++ [EvRespond status body0]) = calls t.
Proof. unfold calls. rewrite List.filter_app. simpl. apply app_nil_r. Qed.

Lemma truthy_missing (o : JsObject) k :
  o !! k = None → truthy (get o k) = false.
Proof. unfold get. by intros ->. Qed.

Lemma truthy_empty (o : JsObject) k :
  o !! k = Some (JStr "") → truthy (get o k) = false.
Proof. unfold get. by intros ->. Qed.

Lemma truthy_deleted (o : JsObject) k : truthy (get (delete k o) k) = false.
Proof. apply truthy_missing, lookup_delete_eq. Qed.

Section MessageControllerFacts.
Context {DB : Type} (util : MessageServiceModule DB).

Lemma isMessageValid_messageToAdd req :
  isMessageValid (get (body req) "messageToAdd") = isRequestValid req.
Proof. reflexivity. Qed.

Lemma addMessageRoute_invalid req (w : World DB) :
  isRequestValid req = false →
  addMessageRoute util req w
  = (Resolved tt,
     then_event w (EvRespond 400 (JObj (error_obj "Invalid message body")))).
Proof. unfold addMessageRoute. by intros ->. Qed.

Lemma addMessageRoute_valid req (w : World DB) :
  let m := get (body req) "messageToAdd" in
  isRequestValid req = true →
  addMessageRoute util req w
  = match svc_saveMessage util m (then_event w (EvCall "saveMessage" [m])) with
    | (Resolved r, w1) =>
        if has_key "error" r
        then (Resolved tt, then_event w1 (EvRespond 500 (JObj r)))
        else (Resolved tt,
              then_event
                (then_event w1
                   (EvEmit "messageUpdate" (JObj {[ "msg" := JObj r ]})))
                (EvRespond 201 (JObj r)))
    | (Rejected e, w1) =>
        (Resolved tt,
         then_event w1
           (EvRespond 500 (JObj (error_obj "Failed to save message"))))
    end.
Proof.
  intros m Hv. unfold addMessageRoute.
  rewrite isMessageValid_messageToAdd, Hv. simpl. fold m.
  unfold call, socket_emit, respond, try_catch, bind, log, then_event. simpl.
  match goal with
  | |- context [svc_saveMessage util m ?w0] =>
      destruct (svc_saveMessage util m w0) as [[r|e] w1]
  end; simpl; [destruct (has_key "error" r)|]; reflexivity.
Qed.

Lemma isRequestValid_missing req :
  message_field_missing req → isRequestValid req = false.
Proof.
  unfold isRequestValid.
  intros [Hb|(o & k & Hb & Hk & Ho)]; [by rewrite truthy_missing|].
  replace (get (body req) "messageToAdd") with (JObj o)
    by (unfold get; by rewrite Hb).
  cbn [prop truthy andb].
  assert (truthy (get o k) = false) as Hf by by apply truthy_missing.
  repeat (apply elem_of_cons in Hk as [->|Hk]);
    [| | |by apply elem_of_nil in Hk]; rewrite Hf;
    rewrite ?andb_false_r; reflexivity.
Qed.

Lemma isRequestValid_empty req (o : JsObject) k :
  k = "msg" ∨ k = "msgFrom" →
  body req !! "messageToAdd" = Some (JObj o) →
  truthy (get o k) = false →
  isRequestValid req = false.
Proof.
  intros Hk Hb Hf. unfold isRequestValid.
  replace (get (body req) "messageToAdd") with (JObj o)
    by (unfold get; by rewrite Hb).
  cbn [prop truthy andb].
  destruct Hk as [-> | ->]; rewrite Hf; rewrite ?andb_false_r; reflexivity.
Qed.

End MessageControllerFacts.

(** C7: with the message service of the application, a request to add a
    message produces exactly these effects, in this order.  When the request
    is valid and the store accepts the message: the service call, the write,
    one [messageUpdate] event carrying the saved message, then the 201
    response.  When the store rejects: the call, the attempted write and a
    500 response, no event.  When validation fails: the 400 response alone.
    Whatever the service module, a save that returns an error object is
    answered without any event. *)
Theorem addMessageRoute_emits_once {DB : Type} `{Database DB}
    (req : Request) (w : World DB) :
  let m := get (body req) "messageToAdd" in
  (∃ w' new,
     addMessageRoute messageService req w = (Resolved tt, w')
     ∧ trace w' = trace w ++ new
     ∧ if isRequestValid req then
         match MessageModel_create m (db w) with
         | (Resolved d, s) =>
             new = [EvCall "saveMessage" [m];
                    EvStorage "MessageModel.create" [m];
                    EvEmit "messageUpdate"
                      (JObj {[ "msg" := JObj (message_toObject d) ]});
                    EvRespond 201 (JObj (message_toObject d))]
             ∧ db w' = s
         | (Rejected e, s) =>
             emitted new = []
             ∧ ∃ text,
                 new = [EvCall "saveMessage" [m];
                        EvStorage "MessageModel.create" [m];
                        EvRespond 500 (JObj (error_obj text))]
         end
       else new = [EvRespond 400 (JObj (error_obj "Invalid message body"))])
  ∧ (∀ (util : MessageServiceModule DB) r w1,
       isRequestValid req = true →
       svc_saveMessage util m (then_event w (EvCall "saveMessage" [m]))
       = (Resolved r, w1) →
       has_key "error" r = true →
       addMessageRoute util req w
       = (Resolved tt, then_event w1 (EvRespond 500 (JObj r)))).
Proof.
  intros m. split.
  - destruct (isRequestValid req) eqn:Hv.
    + rewrite addMessageRoute_valid by done. fold m. simpl.
      rewrite saveMessage_run. simpl.
      destruct (MessageModel_create m (db w)) as [[d|e] s].
      * rewrite has_key_message_toObject.
        eexists _, _. split; [reflexivity|]. simpl.
        rewrite <- !app_assoc. simpl. done.
      * rewrite has_key_error_obj.
        eexists _, _. split; [reflexivity|]. simpl.
        rewrite <- !app_assoc. simpl. split; [reflexivity|].
        split; [reflexivity|]. eexists. reflexivity.
    + rewrite addMessageRoute_invalid by done.
      eexists _, _. split; [reflexivity|]. done.
  - intros util r w1 Hv Hs He.
    rewrite addMessageRoute_valid by done. fold m. by rewrite Hs, He.
Qed.

Lemma addMessageRoute_emits_once_witness :
  addMessageRoute
    {| svc_saveMessage := λ _, ret (error_obj "DB error");
       svc_getMessages := ret [] |}
    (message_request
       (JObj (<[ "msg" := JStr "ErrorTest" ]>
              (<[ "msgFrom" := JStr "User1" ]>
              {[ "msgDateTime" := JStr "2024-06-04" ]}))))
    world0
  = (Resolved tt,
     mkWorld (db world0) (clock world0)
       [EvCall "saveMessage"
          [JObj (<[ "msg" := JStr "ErrorTest" ]>
                 (<[ "msgFrom" := JStr "User1" ]>
                 {[ "msgDateTime" := JStr "2024-06-04" ]}))];
        EvRespond 500 (JObj (error_obj "DB error"))]).
Proof.
  exact (proj2 (addMessageRoute_emits_once
                  (message_request
                     (JObj (<[ "msg" := JStr "ErrorTest" ]>
                            (<[ "msgFrom" := JStr "User1" ]>
                            {[ "msgDateTime" := JStr "2024-06-04" ]}))))
                  world0)
           {| svc_saveMessage := λ _, ret (error_obj "DB error");
              svc_getMessages := ret [] |}
           _ _ eq_refl eq_refl eq_refl).
Defined.

Example addMessageRoute_hello :
  trace (snd (addMessageRoute messageService
                (message_request
                   (JObj (<[ "msg" := JStr "Hello" ]>
                          (<[ "msgFrom" := JStr "sana" ]>
                          {[ "msgDateTime" := JDate 1717459200000 ]}))))
                world0))
  = [EvCall "saveMessage"
       [JObj (<[ "msg" := JStr "Hello" ]>
              (<[ "msgFrom" := JStr "sana" ]>
              {[ "msgDateTime" := JDate 1717459200000 ]}))];
     EvStorage "MessageModel.create"
       [JObj (<[ "msg" := JStr "Hello" ]>
              (<[ "msgFrom" := JStr "sana" ]>
              {[ "msgDateTime" := JDate 1717459200000 ]}))];
     EvEmit "messageUpdate"
       (JObj {[ "msg" := JObj (message_toObject
                  (mkMessage "mHello" "Hello" "sana" 1717459200000)) ]});
     EvRespond 201
       (JObj (message_toObject
                (mkMessage "mHello" "Hello" "sana" 1717459200000)))].
Proof. reflexivity. Qed.

(** C8: a request to add a message that lacks [messageToAdd], or whose
    [messageToAdd] lacks [msg], [msgFrom] or [msgDateTime], is answered 400
    with the error text "Invalid message body", and that response is the
    only effect: no service is called, whatever the service module. *)
Theorem addMessageRoute_missing_field {DB : Type}
    (util : MessageServiceModule DB) (req : Request) (w : World DB) :
  message_field_missing req →
  addMessageRoute util req w
  = (Resolved tt,
     then_event w (EvRespond 400 (JObj (error_obj "Invalid message body"))))
  ∧ error_body_contains (JObj (error_obj "Invalid message body"))
      "Invalid message body" = true
  ∧ calls (trace (snd (addMessageRoute util req w))) = calls (trace w).
Proof.
  intros Hm%isRequestValid_missing.
  rewrite addMessageRoute_invalid by done. split; [done|]. split; [done|].
  simpl. apply calls_then_respond.
Qed.

Lemma addMessageRoute_missing_field_witness :
  addMessageRoute messageService
    (message_request
       (JObj (<[ "msgFrom" := JStr "User1" ]>
              {[ "msgDateTime" := JStr "2024-06-04" ]})))
    world0
  = (Resolved tt,
     then_event world0
       (EvRespond 400 (JObj (error_obj "Invalid message body"))))
  ∧ error_body_contains (JObj (error_obj "Invalid message body"))
      "Invalid message body" = true
  ∧ calls (trace (snd (addMessageRoute messageService
       (message_request
          (JObj (<[ "msgFrom" := JStr "User1" ]>
                 {[ "msgDateTime" := JStr "2024-06-04" ]})))
       world0))) = calls (trace world0).
Proof.
  apply (addMessageRoute_missing_field messageService).
  right. exists (<[ "msgFrom" := JStr "User1" ]>
                 {[ "msgDateTime" := JStr "2024-06-04" ]}), "msg".
  split; [reflexivity|]. split; [|reflexivity].
  apply elem_of_cons. by left.
Defined.

(** ** Empty strings *)

(** C10: an empty string in [username] or [password] of a signup, login or
    reset-password request, or in [msg] or [msgFrom] of the message to add,
    gets the 400 response of the endpoint and nothing else, whatever the
    service modules are; the handler behaves exactly as on the request
    without that field. *)
Theorem empty_string_is_rejected_like_missing {DB : Type}
    (users : UserServiceModule DB) (messages : MessageServiceModule DB)
    (req : Request) (w : World DB) (k : string) :
  let bad_request (text : string) : Outcome unit * World DB :=
    (Resolved tt, then_event w (EvRespond 400 (JObj (error_obj text)))) in
  ((k = "username" ∨ k = "password") →
   body req !! k = Some (JStr "") →
   (createUser users req w
    = bad_request "Username and password are required."
    ∧ createUser users (without_body_field k req) w
      = createUser users req w)
   ∧ (userLogin users req w
      = bad_request "Username and password are required."
      ∧ userLogin users (without_body_field k req) w = userLogin users req w)
   ∧ (resetPassword users req w
      = bad_request "Username and new password are required."
      ∧ resetPassword users (without_body_field k req) w
        = resetPassword users req w))
  ∧ ((k = "msg" ∨ k = "msgFrom") →
     ∀ o : JsObject,
       body req !! "messageToAdd" = Some (JObj o) →
       o !! k = Some (JStr "") →
       addMessageRoute messages req w = bad_request "Invalid message body"
       ∧ addMessageRoute messages (without_message_field k req) w
         = addMessageRoute messages req w).
Proof.
  intros bad_request. subst bad_request. split.
  - intros Hk Hb.
    assert (truthy (get (body req) "username")
            && truthy (get (body req) "password") = false) as Hreq.
    { destruct Hk as [-> | ->]; rewrite (truthy_empty _ _ Hb);
        rewrite ?andb_false_r; reflexivity. }
    assert (truthy (get (body (without_body_field k req)) "username")
            && truthy (get (body (without_body_field k req)) "password")
            = false) as Hdel.
    { unfold without_body_field. simpl.
      destruct Hk as [-> | ->]; rewrite truthy_deleted;
        rewrite ?andb_false_r; reflexivity. }
    rewrite !createUser_invalid, !userLogin_invalid, !resetPassword_invalid
      by done.
    done.
  - intros Hk o Hb Ho.
    assert (isRequestValid req = false) as Hreq.
    { eapply isRequestValid_empty; eauto. by apply truthy_empty. }
    assert (isRequestValid (without_message_field k req) = false) as Hdel.
    { unfold without_message_field, get at 1. rewrite Hb. simpl.
      eapply isRequestValid_empty; [exact Hk| |apply truthy_deleted].
      simpl. apply lookup_insert_eq. }
    by rewrite !addMessageRoute_invalid by done.
Qed.

Lemma empty_string_is_rejected_like_missing_witness :
  (userLogin throwing_user_service (login_request (JStr "sana") (JStr ""))
     world0
   = (Resolved tt,
      then_event world0
        (EvRespond 400
           (JObj (error_obj "Username and password are required."))))
   ∧ userLogin throwing_user_service
       (without_body_field "password"
          (login_request (JStr "sana") (JStr ""))) world0
     = userLogin throwing_user_service
         (login_request (JStr "sana") (JStr "")) world0)
  ∧ (addMessageRoute messageService
       (message_request
          (JObj (<[ "msg" := JStr "Hello" ]>
                 (<[ "msgFrom" := JStr "" ]>
                 {[ "msgDateTime" := JStr "2024-06-04" ]}))))
       world0
     = (Resolved tt,
        then_event world0
          (EvRespond 400 (JObj (error_obj "Invalid message body"))))
     ∧ addMessageRoute messageService
         (without_message_field "msgFrom"
            (message_request
               (JObj (<[ "msg" := JStr "Hello" ]>
                      (<[ "msgFrom" := JStr "" ]>
                      {[ "msgDateTime" := JStr "2024-06-04" ]})))))
         world0
       = addMessageRoute messageService
           (message_request
              (JObj (<[ "msg" := JStr "Hello" ]>
                     (<[ "msgFrom" := JStr "" ]>
                     {[ "msgDateTime" := JStr "2024-06-04" ]}))))
           world0).
Proof.
  split.
  - exact (proj1 (proj2 (proj1 (empty_string_is_rejected_like_missing
                    throwing_user_service messageService
                    (login_request (JStr "sana") (JStr "")) world0
                    "password")
                    (or_intror eq_refl) eq_refl))).
  - exact (proj2 (empty_string_is_rejected_like_missing
                    throwing_user_service messageService
                    (message_request
                       (JObj (<[ "msg" := JStr "Hello" ]>
                              (<[ "msgFrom" := JStr "" ]>
                              {[ "msgDateTime" := JStr "2024-06-04" ]}))))
                    world0 "msgFrom")
             (or_intror eq_refl) _ eq_refl eq_refl).
Defined.

(** ** The in-memory store

    On the in-memory store, [findOne] resolves with no user exactly when no
    stored user carries the username. *)
Lemma mem_findOne_None (name : string) (w : World MemDB) :
  mem_fault (db w) = None →
  (UserModel_findOne {[ "username" := JStr name ]} (db w)
   = (Resolved None, db w)
   ↔ ∀ u, u ∈ mem_users (db w) → user_username u ≠ name).
Proof.
  intros Hf. simpl. unfold mem_user_findOne, mem_guard, mem_find_user.
  rewrite Hf.
  assert (∀ u, matches_filter {[ "username" := JStr name ]} u = true
               ↔ user_username u = name) as Hm.
  { intros u. unfold matches_filter, get. rewrite lookup_singleton_eq. simpl.
    rewrite String.eqb_eq. split; congruence. }
  split.
  - intros [= Hnone] u Hu%list_elem_of_In Hn.
    apply (List.find_none _ _ Hnone) in Hu. apply Hm in Hn. congruence.
  - intros Hall. f_equal. f_equal.
    destruct (List.find _ _) as [u|] eqn:E; [|done].
    apply List.find_some in E as [Hu%list_elem_of_In Hmu].
    apply Hm in Hmu. by apply Hall in Hu.
Qed.

Example login_sana :
  fst (loginUser (mkCredentials (JStr "sana") (JStr "sanaPassword")) world0)
  = Resolved (delete "password" (user_toObject sana)).
Proof. reflexivity. Qed.

Example login_wrong_password :
  fst (loginUser (mkCredentials (JStr "sana") (JStr "wrongPassword")) world0)
  = Resolved (error_obj "Invalid username or password.").
Proof. reflexivity. Qed.

Example login_unknown_user :
  fst (loginUser (mkCredentials (JStr "invalid") (JStr "random")) world0)
  = Resolved (error_obj "User not found.").
Proof. reflexivity. Qed.

Example login_store_down :
  fst (loginUser (mkCredentials (JStr "sana") (JStr "sanaPassword"))
         world_down)
  = Resolved (error_obj "Error logging in user saving user: DB error").
Proof. reflexivity. Qed.

Example signup_sana2 :
  trace (snd (createUser userService
                (login_request (JStr "sana2") (JStr "x")) world0))
  = [EvCall "saveUser"
       [JObj (userToSave_obj (login_request (JStr "sana2") (JStr "x"))
                (clock world0))];
     EvStorage "UserModel.create"
       [JObj (userToSave_obj (login_request (JStr "sana2") (JStr "x"))
                (clock world0))];
     EvRespond 201
       (JObj (delete "password"
                (user_toObject
                   (mkUser "usana2" "sana2" "x" (clock world0)))))].
Proof. reflexivity. Qed.

(** ** The application never answers 500 on the user lookups

    The services of the application always resolve, so the handlers wired
    to them never take the [catch] branch. *)
Lemma app_user_endpoints_never_500 {DB : Type} `{Database DB}
    (req : Request) (w w' : World DB) (body0 : JsValue) :
  userLogin userService req w
  ≠ (Resolved tt, then_event w' (EvRespond 500 body0))
  ∧ resetPassword userService req w
    ≠ (Resolved tt, then_event w' (EvRespond 500 body0))
  ∧ getUser userService req w
    ≠ (Resolved tt, then_event w' (EvRespond 500 body0))
  ∧ deleteUser userService req w
    ≠ (Resolved tt, then_event w' (EvRespond 500 body0)).
Proof.
  repeat split; intros E.
  - apply userLogin_500 in E as [e He]. simpl in He.
    rewrite loginUser_run in He. simpl in He.
    destruct (UserModel_findOne _ _) as [[[d|]|e0] s]; simpl in He;
      try discriminate.
    match type of He with
    | context [if ?b then _ else _] => destruct b; discriminate
    end.
  - apply resetPassword_500 in E as [e He]. simpl in He.
    rewrite updateUser_run in He. simpl in He.
    destruct (UserModel_findOneAndUpdate _ _ _) as [[[d|]|e0] s];
      discriminate.
  - apply getUser_500 in E as [e He]. simpl in He.
    rewrite getUserByUsername_run in He. simpl in He.
    destruct (UserModel_findOne _ _) as [[[d|]|e0] s]; discriminate.
  - apply deleteUser_500 in E as [e He]. simpl in He.
    rewrite deleteUserByUsername_run in He. simpl in He.
    destruct (UserModel_findOneAndDelete _ _) as [[[d|]|e0] s]; discriminate.
Qed.

(** * Further properties *)

(** ** Services *)

Lemma strict_equal_JStr s v : strict_equal (JStr s) v = true ↔ v = JStr s.
Proof.
  destruct v; simpl; try (split; [discriminate|congruence]).
  rewrite String.eqb_eq. split; congruence.
Qed.

Lemma safe_projects d : projects (delete "password" (user_toObject d)) d.
Proof. unfold projects, user_toObject. by simplify_map_eq. Qed.

Lemma has_key_safe d :
  has_key "error" (delete "password" (user_toObject d)) = false.
Proof. apply has_key_false, safe_lookup_error. Qed.

Lemma failure_text_nonempty e : failure_text e ≠ "".
Proof.
  unfold failure_text. destruct (String.eqb_spec (message e) ""); congruence.
Qed.

(** X1: [loginUser] lets a user in exactly when the store finds the username and
    the supplied password is the very string that is stored: a password of
    another type (a number, null, an object) never matches.  The result is
    then the found user without the password. *)
Theorem loginUser_success_iff {DB : Type} `{Database DB}
    (c : UserCredentials) (w : World DB) :
  ∃ r w', loginUser c w = (Resolved r, w')
    ∧ (has_key "error" r = false ↔
       ∃ d, fst (UserModel_findOne {[ "username" := username c ]} (db w))
            = Resolved (Some d)
            ∧ password c = JStr (user_password d)
            ∧ r = delete "password" (user_toObject d)).
Proof.
  rewrite loginUser_run.
  destruct (UserModel_findOne _ (db w)) as [[[d|]|e] s]; cbv zeta; simpl fst.
  - destruct (strict_equal (JStr (user_password d)) (password c)) eqn:Epw.
    + eexists _, _. split; [reflexivity|]. rewrite has_key_safe.
      apply strict_equal_JStr in Epw. split; eauto.
    + eexists _, _. split; [reflexivity|]. rewrite has_key_error_obj.
      split; [discriminate|]. intros (d' & [= <-] & Hp & _).
      apply strict_equal_JStr in Hp. congruence.
  - eexists _, _. split; [reflexivity|]. rewrite has_key_error_obj.
    split; [discriminate|]. intros (d' & [=] & _).
  - eexists _, _. split; [reflexivity|]. rewrite has_key_error_obj.
    split; [discriminate|]. intros (d' & [=] & _).
Qed.

(** X2: A user service that does not answer with an error object answers with
    the user its storage call resolved with: same id, username and joining
    date, no password; and the store is left as that call left it. *)
Theorem user_services_return_stored_user {DB : Type} `{Database DB}
    (w w' : World DB) (r : JsObject) :
  has_key "error" r = false →
  (∀ user, saveUser user w = (Resolved r, w') →
     ∃ d, UserModel_create user (db w) = (Resolved d, db w')
          ∧ projects r d)
  ∧ (∀ name, getUserByUsername name w = (Resolved r, w') →
     ∃ d, UserModel_findOne {[ "username" := name ]} (db w)
          = (Resolved (Some d), db w') ∧ projects r d)
  ∧ (∀ c, loginUser c w = (Resolved r, w') →
     ∃ d, UserModel_findOne {[ "username" := username c ]} (db w)
          = (Resolved (Some d), db w') ∧ projects r d)
  ∧ (∀ name, deleteUserByUsername name w = (Resolved r, w') →
     ∃ d, UserModel_findOneAndDelete {[ "username" := name ]} (db w)
          = (Resolved (Some d), db w') ∧ projects r d)
  ∧ (∀ name updates, updateUser name updates w = (Resolved r, w') →
     ∃ d, UserModel_findOneAndUpdate {[ "username" := name ]} updates (db w)
          = (Resolved (Some d), db w') ∧ projects r d).
Proof.
  intros Hok.
  assert (∀ msg, r ≠ error_obj msg) as Hne.
  { intros msg ->. rewrite has_key_error_obj in Hok. discriminate. }
  repeat split.
  - intros user. rewrite saveUser_run.
    destruct (UserModel_create _ _) as [[d|e] s]; intros [= <- <-];
      [|exfalso; by eapply Hne].
    eexists. split; [reflexivity|apply safe_projects].
  - intros name. rewrite getUserByUsername_run.
    destruct (UserModel_findOne _ _) as [[[d|]|e] s]; cbv zeta;
      intros [= <- <-]; try (exfalso; by eapply Hne).
    eexists. split; [reflexivity|apply safe_projects].
  - intros c. rewrite loginUser_run.
    destruct (UserModel_findOne _ _) as [[[d|]|e] s]; cbv zeta;
      [destruct (strict_equal _ _)| |];
      intros [= <- <-]; try (exfalso; by eapply Hne).
    eexists. split; [reflexivity|apply safe_projects].
  - intros name. rewrite deleteUserByUsername_run.
    destruct (UserModel_findOneAndDelete _ _) as [[[d|]|e] s]; cbv zeta;
      intros [= <- <-]; try (exfalso; by eapply Hne).
    eexists. split; [reflexivity|apply safe_projects].
  - intros name updates. rewrite updateUser_run.
    destruct (UserModel_findOneAndUpdate _ _ _) as [[[d|]|e] s]; cbv zeta;
      intros [= <- <-]; try (exfalso; by eapply Hne).
    eexists. split; [reflexivity|apply safe_projects].
Qed.

Lemma user_services_return_stored_user_witness :
  ∃ d, UserModel_findOneAndUpdate {[ "username" := JStr "sana" ]}
         {[ "password" := JStr "newPassword" ]} (db world0)
       = (Resolved (Some d),
          mkMem [mkUser "65e9b5" "sana" "newPassword" 1702252800000]
                (mem_messages (db world0)) None)
       ∧ projects (delete "password" (user_toObject sana)) d.
Proof.
  refine (proj2 (proj2 (proj2 (proj2
    (user_services_return_stored_user world0
       (mkWorld (mkMem [mkUser "65e9b5" "sana" "newPassword" 1702252800000]
                       (mem_messages (db world0)) None)
                (clock world0)
                [EvStorage "UserModel.findOneAndUpdate"
                   [JObj {[ "username" := JStr "sana" ]};
                    JObj {[ "password" := JStr "newPassword" ]}]])
       (delete "password" (user_toObject sana)) eq_refl))))
    (JStr "sana") {[ "password" := JStr "newPassword" ]} _).
  reflexivity.
Defined.

(** X3: [saveMessage] always resolves: with the stored message when the store
    accepts it, and otherwise with an error object.  The result has an
    [error] key exactly when the store rejected, and its text is the message
    of the exception, or "Failed to save message" when that message is
    empty; it is never the empty string. *)
Theorem saveMessage_result {DB : Type} `{Database DB}
    (m : JsValue) (w : World DB) :
  ∃ r w', saveMessage m w = (Resolved r, w')
    ∧ match fst (MessageModel_create m (db w)) with
      | Resolved d => r = message_toObject d ∧ has_key "error" r = false
      | Rejected e =>
          r = error_obj (failure_text e) ∧ has_key "error" r = true
          ∧ failure_text e ≠ ""
          ∧ (message e ≠ "" → failure_text e = message e)
      end.
Proof.
  rewrite saveMessage_run.
  destruct (MessageModel_create m (db w)) as [[d|e] s]; simpl;
    eexists _, _; (split; [reflexivity|]).
  - split; [done|apply has_key_message_toObject].
  - fold (failure_text e). split; [done|]. split; [apply has_key_error_obj|].
    split; [apply failure_text_nonempty|].
    unfold failure_text. by intros ->%String.eqb_neq.
Qed.

(** ** Controllers, whatever the services *)

Lemma final_event_then {DB A} (o : Outcome A) (w : World DB) ev :
  final_event (o, then_event w ev) = Some ev.
Proof. unfold final_event, then_event. simpl. apply last_snoc. Qed.

Lemma reply_answers {DB} err_status ok_status
    (served : Outcome JsObject * World DB) :
  ∃ w1 st b,
    reply err_status ok_status served
    = (Resolved tt, then_event w1 (EvRespond st b))
    ∧ (st = err_status ∨ st = ok_status ∨ st = 500).
Proof.
  unfold reply. destruct served as [[r|e] w1];
    [destruct (has_key "error" r)|]; eexists _, _, _; eauto.
Qed.

Section HandlerFacts.
Context {DB : Type} (users : UserServiceModule DB)
        (messages : MessageServiceModule DB).

Lemma getMessagesRoute_run req (w : World DB) :
  getMessagesRoute messages req w
  = match svc_getMessages messages (then_event w (EvCall "getMessages" []))
    with
    | (Resolved l, w1) =>
        (Resolved tt, then_event w1 (EvRespond 200 (JArr (JObj <$> l))))
    | (Rejected e, w1) =>
        (Resolved tt,
         then_event w1
           (EvRespond 500 (JObj (error_obj "Failed to fetch messages"))))
    end.
Proof.
  unfold getMessagesRoute, call, respond, try_catch, bind, log, then_event.
  simpl.
  match goal with
  | |- context [svc_getMessages messages ?w0] =>
      destruct (svc_getMessages messages w0) as [[l|e] w1]
  end; reflexivity.
Qed.

Lemma addMessageRoute_answers req (w : World DB) :
  ∃ w1 st b,
    addMessageRoute messages req w
    = (Resolved tt, then_event w1 (EvRespond st b))
    ∧ (st = 400 ∧ b = JObj (error_obj "Invalid message body")
                ∧ isRequestValid req = false
       ∨ (st = 201 ∨ st = 500) ∧ isRequestValid req = true).
Proof.
  destruct (isRequestValid req) eqn:Hv.
  - rewrite addMessageRoute_valid by done.
    destruct (svc_saveMessage _ _ _) as [[r|e] w1];
      [destruct (has_key "error" r)|]; eexists _, _, _; eauto 6.
  - rewrite addMessageRoute_invalid by done. eexists _, _, _. eauto 6.
Qed.

End HandlerFacts.

Ltac answer_reply :=
  match goal with
  | |- context [reply ?es ?os ?served] =>
      let Hst := fresh "Hst" in
      destruct (reply_answers es os served) as (?w1 & ?st & ?b & -> & Hst)
  end.

(** X4: No handler ever rejects, even when its service throws: each of the seven
    route handlers resolves, and the last thing it does is to send a
    response. *)
Theorem handlers_always_answer {DB : Type}
    (users : UserServiceModule DB) (messages : MessageServiceModule DB)
    (handler : Request → M DB unit) (req : Request) (w : World DB) :
  handler ∈ [createUser users; userLogin users; getUser users;
             deleteUser users; resetPassword users;
             addMessageRoute messages; getMessagesRoute messages] →
  ∃ w1 st b, handler req w = (Resolved tt, then_event w1 (EvRespond st b)).
Proof.
  intros Hh.
  repeat (apply elem_of_cons in Hh as [->|Hh]);
    [| | | | | | |by apply elem_of_nil in Hh].
  - destruct (isUserBodyValid req) eqn:Hv.
    + rewrite createUser_valid by done.
      answer_reply. eauto.
    + rewrite createUser_invalid by done. eauto.
  - destruct (truthy (get (body req) "username")
              && truthy (get (body req) "password")) eqn:Hv.
    + apply andb_true_iff in Hv as [Hu Hp].
      rewrite userLogin_valid by done.
      answer_reply. eauto.
    + rewrite userLogin_invalid by done. eauto.
  - destruct (truthy (get (params req) "username")) eqn:Hv.
    + rewrite getUser_valid by done.
      answer_reply. eauto.
    + rewrite getUser_invalid by done. eauto.
  - destruct (truthy (get (params req) "username")) eqn:Hv.
    + rewrite deleteUser_valid by done.
      answer_reply. eauto.
    + rewrite deleteUser_invalid by done. eauto.
  - destruct (truthy (get (body req) "username")
              && truthy (get (body req) "password")) eqn:Hv.
    + apply andb_true_iff in Hv as [Hu Hp].
      rewrite resetPassword_valid by done.
      answer_reply. eauto.
    + rewrite resetPassword_invalid by done. eauto.
  - destruct (addMessageRoute_answers messages req w)
      as (w1 & st & b & -> & _). eauto.
  - rewrite getMessagesRoute_run.
    destruct (svc_getMessages _ _) as [[l|e] w1]; eauto.
Qed.

Lemma handlers_always_answer_witness :
  ∃ w1 st b,
    deleteUser throwing_user_service (username_request (JStr "sana")) world0
    = (Resolved tt, then_event w1 (EvRespond st b)).
Proof.
  apply (handlers_always_answer throwing_user_service messageService).
  do 3 (apply elem_of_cons; right). apply elem_of_cons. by left.
Defined.

(** X5: Login, reset-password, get-user and delete-user answer 400 exactly when
    a required field is falsy (missing, null, false, 0 or the empty string):
    the body's [username] or [password] for the first two, the [username]
    route parameter for the others.  No service outcome produces a 400. *)
Theorem bad_request_iff_field_falsy {DB : Type}
    (users : UserServiceModule DB) (req : Request) (w : World DB) :
  let fields_ok := truthy (get (body req) "username")
                   && truthy (get (body req) "password") in
  let param_ok := truthy (get (params req) "username") in
  ((∃ b, final_event (userLogin users req w) = Some (EvRespond 400 b))
   ↔ fields_ok = false)
  ∧ ((∃ b, final_event (resetPassword users req w) = Some (EvRespond 400 b))
     ↔ fields_ok = false)
  ∧ ((∃ b, final_event (getUser users req w) = Some (EvRespond 400 b))
     ↔ param_ok = false)
  ∧ ((∃ b, final_event (deleteUser users req w) = Some (EvRespond 400 b))
     ↔ param_ok = false).
Proof.
  intros fields_ok param_ok. subst fields_ok param_ok.
  split; [|split; [|split]].
  - destruct (truthy (get (body req) "username")
              && truthy (get (body req) "password")) eqn:Hv.
    + apply andb_true_iff in Hv as [Hu Hp].
      rewrite userLogin_valid by done.
      answer_reply.
      rewrite final_event_then. split; [|discriminate].
      intros [b' [= -> _]]. lia.
    + rewrite userLogin_invalid by done. rewrite final_event_then.
      split; eauto.
  - destruct (truthy (get (body req) "username")
              && truthy (get (body req) "password")) eqn:Hv.
    + apply andb_true_iff in Hv as [Hu Hp].
      rewrite resetPassword_valid by done.
      answer_reply.
      rewrite final_event_then. split; [|discriminate].
      intros [b' [= -> _]]. lia.
    + rewrite resetPassword_invalid by done. rewrite final_event_then.
      split; eauto.
  - destruct (truthy (get (params req) "username")) eqn:Hv.
    + rewrite getUser_valid by done.
      answer_reply.
      rewrite final_event_then. split; [|discriminate].
      intros [b' [= -> _]]. lia.
    + rewrite getUser_invalid by done. rewrite final_event_then.
      split; eauto.
  - destruct (truthy (get (params req) "username")) eqn:Hv.
    + rewrite deleteUser_valid by done.
      answer_reply.
      rewrite final_event_then. split; [|discriminate].
      intros [b' [= -> _]]. lia.
    + rewrite deleteUser_invalid by done. rewrite final_event_then.
      split; eauto.
Qed.

(** X6: The user handlers read nothing of a request but [username] and
    [password] of the body (signup, login, reset-password) or the
    [username] route parameter (get-user, delete-user): two requests that
    agree on these are handled identically, so no other field of a request
    reaches a service or the store. *)
Theorem user_handlers_ignore_other_fields {DB : Type}
    (users : UserServiceModule DB) (req req' : Request) (w : World DB) :
  (get (body req) "username" = get (body req') "username" →
   get (body req) "password" = get (body req') "password" →
   createUser users req w = createUser users req' w
   ∧ userLogin users req w = userLogin users req' w
   ∧ resetPassword users req w = resetPassword users req' w)
  ∧ (get (params req) "username" = get (params req') "username" →
     getUser users req w = getUser users req' w
     ∧ deleteUser users req w = deleteUser users req' w).
Proof.
  split.
  - intros Hu Hp.
    unfold createUser, userLogin, resetPassword, isUserBodyValid.
    by rewrite Hu, Hp.
  - intros Hn. unfold getUser, deleteUser. by rewrite Hn.
Qed.

Lemma user_handlers_ignore_other_fields_witness :
  resetPassword userService
    (mkRequest (<[ "username" := JStr "sana" ]>
                (<[ "password" := JStr "newPassword" ]>
                {[ "dateJoined" := JStr "1999-01-01" ]})) ∅) world0
  = resetPassword userService
      (mkRequest (<[ "username" := JStr "sana" ]>
                  {[ "password" := JStr "newPassword" ]}) ∅) world0.
Proof.
  exact (proj2 (proj2 (proj1 (user_handlers_ignore_other_fields userService
    (mkRequest (<[ "username" := JStr "sana" ]>
                (<[ "password" := JStr "newPassword" ]>
                {[ "dateJoined" := JStr "1999-01-01" ]})) ∅)
    (mkRequest (<[ "username" := JStr "sana" ]>
                {[ "password" := JStr "newPassword" ]}) ∅) world0)
    eq_refl eq_refl))).
Defined.

(** ** The application: what each user endpoint does *)

Lemma error_echo msg :
  ({[ "error" := get (error_obj msg) "error" ]} : JsObject) = error_obj msg.
Proof. unfold get. by rewrite error_obj_error. Qed.

Lemma reply_error {DB} err_status ok_status msg (w1 : World DB) :
  reply err_status ok_status (Resolved (error_obj msg), w1)
  = (Resolved tt, then_event w1 (EvRespond err_status (JObj (error_obj msg)))).
Proof. unfold reply. by rewrite has_key_error_obj, error_echo. Qed.

Lemma reply_safe {DB} err_status ok_status d (w1 : World DB) :
  reply err_status ok_status
    (Resolved (delete "password" (user_toObject d)), w1)
  = (Resolved tt,
     then_event w1
       (EvRespond ok_status (JObj (delete "password" (user_toObject d))))).
Proof. unfold reply. by rewrite has_key_safe. Qed.

Section AppFacts.
Context {DB : Type} `{Database DB}.

Lemma app_createUser req (w : World DB) :
  isUserBodyValid req = true →
  let user := userToSave_obj req (clock w) in
  let w1 := after_storage (then_event w (EvCall "saveUser" [JObj user]))
              "UserModel.create" [JObj user] in
  createUser userService req w
  = match UserModel_create user (db w) with
    | (Resolved d, s) =>
        (Resolved tt,
         then_event (w1 s)
           (EvRespond 201 (JObj (delete "password" (user_toObject d)))))
    | (Rejected e, s) =>
        (Resolved tt,
         then_event (w1 s)
           (EvRespond 400
              (JObj (error_obj ("Error when saving user: " +:+ message e)))))
    end.
Proof.
  intros Hv. rewrite createUser_valid by done. simpl.
  rewrite saveUser_run. simpl.
  destruct (UserModel_create _ _) as [[d|e] s];
    [apply reply_safe | apply reply_error].
Qed.

Lemma app_userLogin req (w : World DB) :
  let c := mkCredentials (get (body req) "username")
                         (get (body req) "password") in
  truthy (username c) = true → truthy (password c) = true →
  let w1 := after_storage
              (then_event w (EvCall "loginUser" [JObj (credentials_obj c)]))
              "UserModel.findOne" [JObj {[ "username" := username c ]}] in
  userLogin userService req w
  = match UserModel_findOne {[ "username" := username c ]} (db w) with
    | (Resolved (Some d), s) =>
        if strict_equal (JStr (user_password d)) (password c)
        then (Resolved tt,
              then_event (w1 s)
                (EvRespond 200 (JObj (delete "password" (user_toObject d)))))
        else (Resolved tt,
              then_event (w1 s)
                (EvRespond 401
                   (JObj (error_obj "Invalid username or password."))))
    | (Resolved None, s) =>
        (Resolved tt,
         then_event (w1 s) (EvRespond 401 (JObj (error_obj "User not found."))))
    | (Rejected e, s) =>
        (Resolved tt,
         then_event (w1 s)
           (EvRespond 401
              (JObj (error_obj ("Error logging in user saving user: "
                                +:+ message e)))))
    end.
Proof.
  intros c Hu Hp. rewrite userLogin_valid by done.
  cbn [svc_loginUser userService].
  rewrite loginUser_run. cbv zeta. cbn [db then_event].
  destruct (UserModel_findOne _ _) as [[[d|]|e] s];
    [destruct (strict_equal _ _)| |];
    first [apply reply_safe | apply reply_error].
Qed.

Lemma app_getUser req (w : World DB) :
  let name := get (params req) "username" in
  truthy name = true →
  let w1 := after_storage (then_event w (EvCall "getUserByUsername" [name]))
              "UserModel.findOne" [JObj {[ "username" := name ]}] in
  getUser userService req w
  = match UserModel_findOne {[ "username" := name ]} (db w) with
    | (Resolved (Some d), s) =>
        (Resolved tt,
         then_event (w1 s)
           (EvRespond 200 (JObj (delete "password" (user_toObject d)))))
    | (Resolved None, s) =>
        (Resolved tt,
         then_event (w1 s) (EvRespond 404 (JObj (error_obj "User not found"))))
    | (Rejected e, s) =>
        (Resolved tt,
         then_event (w1 s)
           (EvRespond 404
              (JObj (error_obj ("Error when saving user: " +:+ message e)))))
    end.
Proof.
  intros name Hn. rewrite getUser_valid by done. simpl.
  rewrite getUserByUsername_run. simpl.
  destruct (UserModel_findOne _ _) as [[[d|]|e] s];
    first [apply reply_safe | apply reply_error].
Qed.

Lemma app_deleteUser req (w : World DB) :
  let name := get (params req) "username" in
  truthy name = true →
  let w1 := after_storage
              (then_event w (EvCall "deleteUserByUsername" [name]))
              "UserModel.findOneAndDelete" [JObj {[ "username" := name ]}] in
  deleteUser userService req w
  = match UserModel_findOneAndDelete {[ "username" := name ]} (db w) with
    | (Resolved (Some d), s) =>
        (Resolved tt,
         then_event (w1 s)
           (EvRespond 200 (JObj (delete "password" (user_toObject d)))))
    | (Resolved None, s) =>
        (Resolved tt,
         then_event (w1 s) (EvRespond 404 (JObj (error_obj "User not found."))))
    | (Rejected e, s) =>
        (Resolved tt,
         then_event (w1 s)
           (EvRespond 404
              (JObj (error_obj ("Error deleting user: " +:+ message e)))))
    end.
Proof.
  intros name Hn. rewrite deleteUser_valid by done. simpl.
  rewrite deleteUserByUsername_run. simpl.
  destruct (UserModel_findOneAndDelete _ _) as [[[d|]|e] s];
    first [apply reply_safe | apply reply_error].
Qed.

Lemma app_resetPassword req (w : World DB) :
  let name := get (body req) "username" in
  let updates : JsObject := {[ "password" := get (body req) "password" ]} in
  truthy name = true → truthy (get (body req) "password") = true →
  let w1 := after_storage
              (then_event w (EvCall "updateUser" [name; JObj updates]))
              "UserModel.findOneAndUpdate"
              [JObj {[ "username" := name ]}; JObj updates] in
  resetPassword userService req w
  = match UserModel_findOneAndUpdate {[ "username" := name ]} updates (db w)
    with
    | (Resolved (Some d), s) =>
        (Resolved tt,
         then_event (w1 s)
           (EvRespond 200 (JObj (delete "password" (user_toObject d)))))
    | (Resolved None, s) =>
        (Resolved tt,
         then_event (w1 s) (EvRespond 404 (JObj (error_obj "User not found."))))
    | (Rejected e, s) =>
        (Resolved tt,
         then_event (w1 s)
           (EvRespond 404
              (JObj (error_obj ("Error updating user: " +:+ message e)))))
    end.
Proof.
  intros name updates Hn Hp. rewrite resetPassword_valid by done. simpl.
  rewrite updateUser_run. simpl.
  destruct (UserModel_findOneAndUpdate _ _ _) as [[[d|]|e] s];
    first [apply reply_safe | apply reply_error].
Qed.

End AppFacts.

Lemma no_password_error msg : no_password (JObj (error_obj msg)).
Proof. by apply error_obj_other. Qed.

Lemma no_password_safe d :
  no_password (JObj (delete "password" (user_toObject d))).
Proof. apply safe_lookup_password. Qed.

Lemma trace_three {DB} (w : World DB) ev1 operation oargs (s : DB) ev3 :
  trace (then_event (after_storage (then_event w ev1) operation oargs s) ev3)
  = trace w ++ [ev1; EvStorage operation oargs; ev3].
Proof. simpl. by rewrite <- !app_assoc. Qed.

Ltac round_trip_done :=
  split; [reflexivity|]; right; eexists _, _, _, _, _, _;
  split; [apply trace_three | set_solver].

Ltac refused :=
  split; [reflexivity|]; left; split; [reflexivity|]; eexists; reflexivity.

(** X7: With the services of the application, each user endpoint makes at most
    one service call and one round trip to the store and sends exactly one
    response, last.  A refused request (400 from validation) never reaches
    the store.  The statuses are 201 or 400 for signup, 200 or 401 for
    login, 200 or 404 for the other three; none is 500. *)
Theorem user_endpoints_one_round_trip {DB : Type} `{Database DB}
    (req : Request) (w : World DB) :
  one_round_trip (createUser userService req w) w [201; 400]
  ∧ one_round_trip (userLogin userService req w) w [200; 401]
  ∧ one_round_trip (getUser userService req w) w [200; 404]
  ∧ one_round_trip (deleteUser userService req w) w [200; 404]
  ∧ one_round_trip (resetPassword userService req w) w [200; 404].
Proof.
  unfold one_round_trip. split; [|split; [|split; [|split]]].
  - destruct (isUserBodyValid req) eqn:Hv.
    + rewrite app_createUser by done. cbv zeta.
      destruct (UserModel_create _ _) as [[d|e] s]; round_trip_done.
    + rewrite createUser_invalid by done. refused.
  - destruct (truthy (get (body req) "username")
              && truthy (get (body req) "password")) eqn:Hv.
    + apply andb_true_iff in Hv as [Hu Hp].
      rewrite app_userLogin by done. cbv zeta.
      destruct (UserModel_findOne _ _) as [[[d|]|e] s];
        [destruct (strict_equal _ _)| |]; round_trip_done.
    + rewrite userLogin_invalid by done. refused.
  - destruct (truthy (get (params req) "username")) eqn:Hv.
    + rewrite app_getUser by done. cbv zeta.
      destruct (UserModel_findOne _ _) as [[[d|]|e] s]; round_trip_done.
    + rewrite getUser_invalid by done. refused.
  - destruct (truthy (get (params req) "username")) eqn:Hv.
    + rewrite app_deleteUser by done. cbv zeta.
      destruct (UserModel_findOneAndDelete _ _) as [[[d|]|e] s];
        round_trip_done.
    + rewrite deleteUser_invalid by done. refused.
  - destruct (truthy (get (body req) "username")
              && truthy (get (body req) "password")) eqn:Hv.
    + apply andb_true_iff in Hv as [Hu Hp].
      rewrite app_resetPassword by done. cbv zeta.
      destruct (UserModel_findOneAndUpdate _ _ _) as [[[d|]|e] s];
        round_trip_done.
    + rewrite resetPassword_invalid by done. refused.
Qed.

(** X8: With the services of the application, no user endpoint ever sends a
    body with a [password] property: not on success, not on a service error,
    not on a refused request. *)
Theorem user_endpoints_never_send_password {DB : Type} `{Database DB}
    (req : Request) (w : World DB) (handler : Request → M DB unit) :
  handler ∈ [createUser userService; userLogin userService;
             getUser userService; deleteUser userService;
             resetPassword userService] →
  ∃ w1 st b, handler req w = (Resolved tt, then_event w1 (EvRespond st b))
             ∧ no_password b.
Proof.
  intros Hh.
  repeat (apply elem_of_cons in Hh as [->|Hh]);
    [| | | | |by apply elem_of_nil in Hh].
  - destruct (isUserBodyValid req) eqn:Hv.
    + rewrite app_createUser by done. cbv zeta.
      destruct (UserModel_create _ _) as [[d|e] s]; eexists _, _, _;
        (split; [reflexivity|]);
        first [apply no_password_safe | apply no_password_error].
    + rewrite createUser_invalid by done. eexists _, _, _.
      split; [reflexivity|apply no_password_error].
  - destruct (truthy (get (body req) "username")
              && truthy (get (body req) "password")) eqn:Hv.
    + apply andb_true_iff in Hv as [Hu Hp].
      rewrite app_userLogin by done. cbv zeta.
      destruct (UserModel_findOne _ _) as [[[d|]|e] s];
        [destruct (strict_equal _ _)| |]; eexists _, _, _;
        (split; [reflexivity|]);
        first [apply no_password_safe | apply no_password_error].
    + rewrite userLogin_invalid by done. eexists _, _, _.
      split; [reflexivity|apply no_password_error].
  - destruct (truthy (get (params req) "username")) eqn:Hv.
    + rewrite app_getUser by done. cbv zeta.
      destruct (UserModel_findOne _ _) as [[[d|]|e] s]; eexists _, _, _;
        (split; [reflexivity|]);
        first [apply no_password_safe | apply no_password_error].
    + rewrite getUser_invalid by done. eexists _, _, _.
      split; [reflexivity|apply no_password_error].
  - destruct (truthy (get (params req) "username")) eqn:Hv.
    + rewrite app_deleteUser by done. cbv zeta.
      destruct (UserModel_findOneAndDelete _ _) as [[[d|]|e] s];
        eexists _, _, _; (split; [reflexivity|]);
        first [apply no_password_safe | apply no_password_error].
    + rewrite deleteUser_invalid by done. eexists _, _, _.
      split; [reflexivity|apply no_password_error].
  - destruct (truthy (get (body req) "username")
              && truthy (get (body req) "password")) eqn:Hv.
    + apply andb_true_iff in Hv as [Hu Hp].
      rewrite app_resetPassword by done. cbv zeta.
      destruct (UserModel_findOneAndUpdate _ _ _) as [[[d|]|e] s];
        eexists _, _, _; (split; [reflexivity|]);
        first [apply no_password_safe | apply no_password_error].
    + rewrite resetPassword_invalid by done. eexists _, _, _.
      split; [reflexivity|apply no_password_error].
Qed.

Lemma user_endpoints_never_send_password_witness :
  ∃ w1 st b,
    userLogin userService
      (login_request (JStr "sana") (JStr "sanaPassword")) world0
    = (Resolved tt, then_event w1 (EvRespond st b))
    ∧ no_password b.
Proof.
  apply (user_endpoints_never_send_password
           (login_request (JStr "sana") (JStr "sanaPassword")) world0).
  apply elem_of_cons; right. apply elem_of_cons. by left.
Defined.

(** X9: Signup, end to end.  For a body with truthy [username] and [password],
    the user handed to the store has those two values and the server's clock
    as joining date, whatever else the body holds.  If the store accepts,
    the answer is 201 with the stored user's id, username and joining date
    and no password, and the store is as the creation left it; if the store
    rejects (a duplicate username, say), the answer is 400 and its text ends
    with the store's own message. *)
Theorem signup_end_to_end {DB : Type} `{Database DB}
    (req : Request) (w : World DB) :
  isUserBodyValid req = true →
  let user := userToSave_obj req (clock w) in
  user !! "dateJoined" = Some (JDate (clock w))
  ∧ dom user = {[ "username"; "password"; "dateJoined" ]}
  ∧ ∃ w', createUser userService req w = (Resolved tt, w')
      ∧ match UserModel_create user (db w) with
        | (Resolved d, s) =>
            db w' = s
            ∧ ∃ r, final_event (Resolved tt, w')
                   = Some (EvRespond 201 (JObj r))
                   ∧ projects r d ∧ dom r = SafeUser_fields
        | (Rejected e, s) =>
            db w' = s
            ∧ final_event (Resolved tt, w')
              = Some (EvRespond 400
                        (JObj (error_obj ("Error when saving user: "
                                          +:+ message e))))
        end.
Proof.
  intros Hv user. split; [|split].
  - subst user. unfold userToSave_obj. by simplify_map_eq.
  - subst user. unfold userToSave_obj.
    rewrite !dom_insert_L, dom_empty_L. set_solver.
  - rewrite app_createUser by done. cbv zeta. fold user.
    destruct (UserModel_create user (db w)) as [[d|e] s]; eexists;
      (split; [reflexivity|]); (split; [reflexivity|]).
    + eexists. rewrite final_event_then. split; [reflexivity|].
      split; [apply safe_projects | apply safe_dom].
    + apply final_event_then.
Qed.

Lemma signup_end_to_end_witness :
  ∃ w', createUser userService
          (login_request (JStr "sana") (JStr "x")) world0
        = (Resolved tt, w')
        ∧ db w' = db world0
        ∧ final_event (Resolved tt, w')
          = Some (EvRespond 400
                    (JObj (error_obj
                       "Error when saving user: E11000 duplicate key error"))).
Proof.
  destruct (signup_end_to_end (login_request (JStr "sana") (JStr "x")) world0
              eq_refl) as (_ & _ & w' & Hrun & Hw').
  exists w'. split; [exact Hrun|]. exact Hw'.
Defined.

(** ** The message endpoints *)

Lemma isMessageValid_complete v : isMessageValid v = true ↔ complete_message v.
Proof.
  unfold isMessageValid, complete_message. split.
  - destruct v as [| | | | | | | |o]; simpl;
      rewrite ?andb_false_r; try discriminate.
    intros [[Hm Hf]%andb_true_iff Hd]%andb_true_iff. eauto 6.
  - intros (o & -> & Hm & Hf & Hd). simpl. by rewrite Hm, Hf, Hd.
Qed.

(** X10: The two validators of the message controller accept the same requests:
    those whose [messageToAdd] is an object with truthy [msg], [msgFrom] and
    [msgDateTime].  A [messageToAdd] that is a string, a number, a boolean,
    an array or null is refused, and so is a falsy [msgDateTime]. *)
Theorem isRequestValid_iff_complete (req : Request) :
  (isRequestValid req = true
   ↔ complete_message (get (body req) "messageToAdd"))
  ∧ (isMessageValid (get (body req) "messageToAdd") = true
     ↔ complete_message (get (body req) "messageToAdd")).
Proof.
  rewrite <- isMessageValid_messageToAdd. split; apply isMessageValid_complete.
Qed.

(** X11: Whatever the message service, add-message answers 400 exactly when the
    message is incomplete, and then always with "Invalid message body": the
    second validation can never fail, and a 400 with "Invalid message
    object" is never sent. *)
Theorem addMessageRoute_400_iff_incomplete {DB : Type}
    (messages : MessageServiceModule DB) (req : Request) (w : World DB) :
  ((∃ b, final_event (addMessageRoute messages req w)
         = Some (EvRespond 400 b))
   ↔ ¬ complete_message (get (body req) "messageToAdd"))
  ∧ (∀ b, final_event (addMessageRoute messages req w)
          = Some (EvRespond 400 b) →
          b = JObj (error_obj "Invalid message body")).
Proof.
  rewrite <- isMessageValid_complete, isMessageValid_messageToAdd.
  destruct (addMessageRoute_answers messages req w)
    as (w1 & st & b & -> & Hst).
  rewrite final_event_then. split; [split|].
  - intros [b' [= -> _]]. destruct Hst as [(_ & _ & ->)|[[?|?] _]];
      [done|discriminate..].
  - intros Hv. destruct Hst as [(-> & _ & _)|[_ Hv']]; [eauto|done].
  - intros b' [= -> <-].
    destruct Hst as [(_ & -> & _)|[[?|?] _]]; [done|discriminate..].
Qed.

(** X12: When a complete message cannot be saved, add-message answers 500 and
    sends no event.  With the message service of the application the text is
    the store's own message, or "Failed to save message" when that message
    is empty; a service that throws gets the same fixed text, so the two
    cases cannot be told apart by the client. *)
Theorem addMessageRoute_failure_text {DB : Type} `{Database DB}
    (req : Request) (w : World DB) :
  isRequestValid req = true →
  let m := get (body req) "messageToAdd" in
  (∀ e s, MessageModel_create m (db w) = (Rejected e, s) →
     ∃ w', addMessageRoute messageService req w = (Resolved tt, w')
       ∧ final_event (Resolved tt, w')
         = Some (EvRespond 500 (JObj (error_obj (failure_text e))))
       ∧ emitted (trace w') = emitted (trace w))
  ∧ (∀ (util : MessageServiceModule DB) e w1,
       svc_saveMessage util m (then_event w (EvCall "saveMessage" [m]))
       = (Rejected e, w1) →
       addMessageRoute util req w
       = (Resolved tt,
          then_event w1
            (EvRespond 500 (JObj (error_obj "Failed to save message"))))).
Proof.
  intros Hv m. split.
  - intros e s Hs. rewrite addMessageRoute_valid by done. fold m. simpl.
    rewrite saveMessage_run. simpl. rewrite Hs. fold (failure_text e).
    rewrite has_key_error_obj. eexists. split; [reflexivity|].
    split; [apply final_event_then|].
    simpl. unfold emitted. rewrite !List.filter_app. simpl.
    by rewrite !app_nil_r.
  - intros util e w1 Hs. rewrite addMessageRoute_valid by done. fold m.
    by rewrite Hs.
Qed.

Lemma addMessageRoute_failure_text_witness :
  ∃ w', addMessageRoute messageService (message_request hello_request)
          world_down = (Resolved tt, w')
    ∧ final_event (Resolved tt, w')
      = Some (EvRespond 500 (JObj (error_obj "DB error")))
    ∧ emitted (trace w') = emitted (trace world_down).
Proof.
  exact (proj1 (addMessageRoute_failure_text (message_request hello_request)
                  world_down eq_refl)
           (Error "DB error") (db world_down) eq_refl).
Defined.

(** X13: With the message service of the application, get-messages always answers
    200 with an array, after one service call and one storage query.  The
    array is in non-decreasing order of [msgDateTime] and holds the stored
    messages; when the storage query fails it is empty, so a client cannot
    tell a failing store from an empty one. *)
Theorem getMessagesRoute_always_200 {DB : Type} `{Database DB}
    (req : Request) (w : World DB) :
  ∃ l w', getMessagesRoute messageService req w = (Resolved tt, w')
    ∧ trace w' = trace w ++ [EvCall "getMessages" [];
                             EvStorage "MessageModel.find" [];
                             EvRespond 200 (JArr (JObj <$> l))]
    ∧ StronglySorted (λ a b, msgDateTime_of a ≤ msgDateTime_of b) l
    ∧ match fst (MessageModel_find (db w)) with
      | Resolved docs => l ≡ₚ message_toObject <$> docs
      | Rejected e => l = []
      end.
Proof.
  rewrite getMessagesRoute_run. simpl. rewrite getMessages_run. simpl.
  destruct (MessageModel_find (db w)) as [[docs|e] s]; simpl fst.
  - exists (message_toObject <$> query_sort 1 docs). eexists.
    split; [reflexivity|]. split; [apply trace_three|].
    split; [apply toObject_sorted, query_sort_sorted|].
    by rewrite query_sort_perm.
  - exists []. eexists.
    split; [reflexivity|]. split; [apply trace_three|].
    split; [constructor|done].
Qed.

(** X14: Whatever the message service, get-messages answers 500 exactly when the
    service call throws, with the fixed text "Failed to fetch messages";
    otherwise it answers 200 with what the service returned, and the request
    itself is never read. *)
Theorem getMessagesRoute_500_iff_throw {DB : Type}
    (messages : MessageServiceModule DB) (req req' : Request) (w : World DB) :
  let served := svc_getMessages messages
                  (then_event w (EvCall "getMessages" [])) in
  getMessagesRoute messages req w = getMessagesRoute messages req' w
  ∧ ((∃ e, fst served = Rejected e)
     ↔ final_event (getMessagesRoute messages req w)
       = Some (EvRespond 500 (JObj (error_obj "Failed to fetch messages"))))
  ∧ (∀ l, fst served = Resolved l →
       final_event (getMessagesRoute messages req w)
       = Some (EvRespond 200 (JArr (JObj <$> l)))).
Proof.
  intros served. subst served. split; [reflexivity|].
  rewrite getMessagesRoute_run.
  destruct (svc_getMessages _ _) as [[l|e] w1]; rewrite final_event_then;
    simpl; split.
  - split; [intros [e [=]] | discriminate].
  - by intros l' [= <-].
  - split; eauto.
  - discriminate.
Qed.

(** ** The client wrappers *)

Lemma string_app_assoc (a b c : string) : (a +:+ b) +:+ c = a +:+ (b +:+ c).
Proof.
  induction a as [|x a IH]; [done|].
  change (String x ((a +:+ b) +:+ c) = String x (a +:+ b +:+ c)).
  by f_equal.
Qed.

Section ClientFacts.
Context {Net : Type} `{HttpClient Net} (url : string).
Import MessageServiceClient.

Lemma addMessage_run m (w : World Net) :
  addMessage url m w
  = match api_post (url +:+ "/messaging/addMessage")
            (JObj {[ "messageToAdd" := m ]}) (db w) with
    | (Resolved res, n) =>
        if (status res =? 200) || (status res =? 201)
        then (Resolved (data res), mkWorld n (clock w) (trace w))
        else (Rejected (Error "Error while adding a new message to a chat"),
              mkWorld n (clock w) (trace w))
    | (Rejected e, n) => (Rejected e, mkWorld n (clock w) (trace w))
    end.
Proof.
  unfold addMessage, MESSAGE_API_URL, reqBody, bind, http, throw, ret.
  rewrite string_app_assoc.
  destruct (api_post _ _ (db w)) as [[res|e] n]; [|reflexivity].
  rewrite <- negb_orb. by destruct (_ || _).
Qed.

Lemma getMessages_client_run (w : World Net) :
  MessageServiceClient.getMessages url w
  = match api_get (url +:+ "/messaging/getMessages") (db w) with
    | (Resolved res, n) =>
        if status res =? 200
        then (Resolved (data res), mkWorld n (clock w) (trace w))
        else (Rejected
                (Error "Error when fetching list of chats for the given user"),
              mkWorld n (clock w) (trace w))
    | (Rejected e, n) => (Rejected e, mkWorld n (clock w) (trace w))
    end.
Proof.
  unfold MessageServiceClient.getMessages, MESSAGE_API_URL, bind, http,
    throw, ret.
  rewrite string_app_assoc.
  destruct (api_get _ (db w)) as [[res|e] n]; [|reflexivity].
  by destruct (_ =? _).
Qed.

End ClientFacts.

(** X15: The client's [addMessage] resolves exactly when the server answers 200
    or 201, and then with the body of the answer; any other status rejects
    with "Error while adding a new message to a chat", and a failure of the
    HTTP client itself is passed on unchanged. *)
Theorem client_addMessage_result {Net : Type} `{HttpClient Net}
    (url : string) (m : JsValue) (w : World Net) :
  let sent := api_post (url +:+ "/messaging/addMessage")
                (JObj {[ "messageToAdd" := m ]}) (db w) in
  (∀ v, fst (MessageServiceClient.addMessage url m w) = Resolved v
        ↔ ∃ res, fst sent = Resolved res
                 ∧ (status res = 200 ∨ status res = 201) ∧ v = data res)
  ∧ (∀ e, fst (MessageServiceClient.addMessage url m w) = Rejected e
          ↔ fst sent = Rejected e
            ∨ ∃ res, fst sent = Resolved res
                     ∧ status res ≠ 200 ∧ status res ≠ 201
                     ∧ e = Error "Error while adding a new message to a chat").
Proof.
  intros sent. subst sent. rewrite addMessage_run.
  destruct (api_post _ _ (db w)) as [[res|e0] n]; simpl.
  - destruct (Z.eqb_spec (status res) 200) as [E1|E1];
      [|destruct (Z.eqb_spec (status res) 201) as [E2|E2]]; simpl; split.
    + intros v. split; [intros [= <-]; eauto|].
      by intros (? & [= <-] & _ & ->).
    + intros e. split; [discriminate|].
      intros [[=]|(? & [= <-] & ? & _)]. done.
    + intros v. split; [intros [= <-]; eauto|].
      by intros (? & [= <-] & _ & ->).
    + intros e. split; [discriminate|].
      intros [[=]|(? & [= <-] & _ & ? & _)]. done.
    + intros v. split; [discriminate|].
      intros (? & [= <-] & [?|?] & _); done.
    + intros e. split; [intros [= <-]; eauto 6|].
      by intros [[=]|(? & [= <-] & _ & _ & ->)].
  - split.
    + intros v. split; [discriminate|]. by intros (? & [=] & _).
    + intros e. split; [intros [= <-]; eauto|].
      by intros [[= <-]|(? & [=] & _)].
Qed.

(** X16: The client's [getMessages] resolves exactly when the server answers 200:
    unlike [addMessage] it rejects a 201.  A failure of the HTTP client
    itself is passed on unchanged. *)
Theorem client_getMessages_result {Net : Type} `{HttpClient Net}
    (url : string) (w : World Net) :
  let sent := api_get (url +:+ "/messaging/getMessages") (db w) in
  (∀ v, fst (MessageServiceClient.getMessages url w) = Resolved v
        ↔ ∃ res, fst sent = Resolved res ∧ status res = 200 ∧ v = data res)
  ∧ (∀ res, fst sent = Resolved res → status res = 201 →
       fst (MessageServiceClient.getMessages url w)
       = Rejected
           (Error "Error when fetching list of chats for the given user"))
  ∧ (∀ e, fst sent = Rejected e →
       fst (MessageServiceClient.getMessages url w) = Rejected e).
Proof.
  intros sent. subst sent. rewrite getMessages_client_run.
  destruct (api_get _ (db w)) as [[res|e0] n]; simpl.
  - destruct (Z.eqb_spec (status res) 200) as [E1|E1]; simpl;
      split; [|split| |split].
    + intros v. split; [intros [= <-]; eauto|].
      by intros (? & [= <-] & _ & ->).
    + intros ? [= <-] ?. lia.
    + discriminate.
    + intros v. split; [discriminate|]. intros (? & [= <-] & ? & _). done.
    + done.
    + discriminate.
  - split; [|split].
    + intros v. split; [discriminate|]. by intros (? & [=] & _).
    + discriminate.
    + by intros e [= <-].
Qed.

(** X17: The body the client's [addMessage] sends is the one the server's
    add-message route reads: the server accepts it, whatever the route
    parameters, exactly when the message is complete. *)
Theorem client_request_passes_server_validation
    (m : JsValue) (route_params : JsObject) :
  isRequestValid (mkRequest (MessageServiceClient.reqBody m) route_params)
  = true
  ↔ complete_message m.
Proof.
  rewrite <- isMessageValid_complete.
  unfold isRequestValid, isMessageValid, MessageServiceClient.reqBody, get.
  simpl. by rewrite lookup_singleton_eq.
Qed.

Example client_addMessage_created :
  fst (MessageServiceClient.addMessage "http://localhost:8000" hello_request
         (browser (Resolved (mkResponse 201 hello_request))))
  = Resolved hello_request.
Proof. reflexivity. Qed.

Example client_addMessage_refused :
  fst (MessageServiceClient.addMessage "http://localhost:8000" (JStr "hi")
         (browser (Resolved
            (mkResponse 400 (JObj (error_obj "Invalid message body"))))))
  = Rejected (Error "Error while adding a new message to a chat").
Proof. reflexivity. Qed.

Example client_getMessages_201 :
  fst (MessageServiceClient.getMessages "http://localhost:8000"
         (browser (Resolved (mkResponse 201 (JArr [])))))
  = Rejected (Error "Error when fetching list of chats for the given user").
Proof. reflexivity. Qed.

Example client_addMessage_url :
  net_requests
    (db (snd (MessageServiceClient.addMessage "http://localhost:8000"
                hello_request
                (browser (Resolved (mkResponse 201 hello_request))))))
  = [("http://localhost:8000/messaging/addMessage",
      JObj {[ "messageToAdd" := hello_request ]})].
Proof. reflexivity. Qed.
